(** * GitHub traffic analyzer: the request and aggregation layer of [app.py]

    A shallow embedding of the class [GitHubTrafficFetcher] and theorems
    about its transport ([make_request], [check_rate_limit]), its paginator
    ([get_user_repos]), its collector ([get_repo_traffic_data]) and its
    aggregator ([get_all_traffic_data], [print_summary]).

    Conventions of the embedding.
    - Python values that come out of [response.json()] are values of [json];
      Python's [None] and JSON's [null] are the same value, [JNull].  Numbers
      are integers, as in the API's schema (JSON floats are not modelled).
    - A method that touches the fetcher's mutable field, the clock, or the
      network is a function [World -> result A * World].  An exception leaves
      the effects made before it in place.
    - [print] is not modelled, but the expressions it formats are evaluated:
      [response.status_code] on [None] raises [AttributeError].
    - Durations and clock readings are rationals; [time.sleep d] advances the
      clock by exactly [d], a request takes no time.  Where the code computes
      with floating-point numbers (the wait of [check_rate_limit]) the model
      computes exactly; the two agree on whole numbers, and a theorem about
      such a wait in general states only what rounding keeps. *)

From Stdlib Require Import ZArith QArith Qminmax List String Ascii Bool Lia Lqa.
From Stdlib Require Import Permutation Sorted.
Import ListNotations.

Local Open Scope Z_scope.
#[local] Set Warnings "-register-all".

(** ** Python values *)

Module Py.

Inductive json : Type :=
| JNull
| JBool (b : bool)
| JNum (n : Z)
| JStr (s : string)
| JList (l : list json)
| JDict (d : list (string * json)).

Inductive exn : Type :=
| ValueError
| AttributeError
| KeyError
| TypeError
| JSONDecodeError.

(** Why a run of the model was cut short without a Python outcome. *)
Inductive cut : Type :=
| NoFuel            (* a [while True] loop outlived the fuel given to it *)
| NonStringName.    (* a repository whose [name] is a scalar but not a string *)

Inductive result (A : Type) : Type :=
| Return (a : A)
| Raise (e : exn)
| Cut (c : cut).

Arguments Return {A} a.
Arguments Raise {A} e.
Arguments Cut {A} c.

Definition rbind {A B} (r : result A) (k : A -> result B) : result B :=
  match r with
  | Return a => k a
  | Raise e => Raise e
  | Cut c => Cut c
  end.

(** [bool(v)] *)
Definition truthy (v : json) : bool :=
  match v with
  | JNull => false
  | JBool b => b
  | JNum n => negb (n =? 0)
  | JStr s => negb (String.eqb s EmptyString)
  | JList l => match l with [] => false | _ => true end
  | JDict d => match d with [] => false | _ => true end
  end.

Definition truthy_str (s : string) : bool := negb (String.eqb s EmptyString).

(** Dictionaries keep insertion order; a key occurs once. *)
Fixpoint dict_get {V} (d : list (string * V)) (k : string) : option V :=
  match d with
  | [] => None
  | (k', v) :: d' => if String.eqb k k' then Some v else dict_get d' k
  end.

(** [d[k] = v] *)
Fixpoint dict_set {V} (d : list (string * V)) (k : string) (v : V)
  : list (string * V) :=
  match d with
  | [] => [(k, v)]
  | (k', v') :: d' =>
      if String.eqb k k' then (k', v) :: d' else (k', v') :: dict_set d' k v
  end.

(** [d.update(e)] *)
Definition dict_update {V} (d e : list (string * V)) : list (string * V) :=
  fold_left (fun acc kv => dict_set acc (fst kv) (snd kv)) e d.

(** [v[k]] for a string [k] *)
Definition subscript (v : json) (k : string) : result json :=
  match v with
  | JDict d => match dict_get d k with
               | Some x => Return x
               | None => Raise KeyError
               end
  | _ => Raise TypeError
  end.

(** [v.get(k, default)] *)
Definition method_get (v : json) (k : string) (default : json) : result json :=
  match v with
  | JDict d => match dict_get d k with
               | Some x => Return x
               | None => Return default
               end
  | _ => Raise AttributeError
  end.

(** [total += v] for an integer [total] *)
Definition iadd (total : Z) (v : json) : result Z :=
  match v with
  | JNum n => Return (total + n)
  | JBool b => Return (total + (if b then 1 else 0))
  | _ => Raise TypeError
  end.

Fixpoint chars (s : string) : list json :=
  match s with
  | EmptyString => []
  | String c s' => JStr (String c EmptyString) :: chars s'
  end.

(** [l.extend(v)] *)
Definition extend (l : list json) (v : json) : result (list json) :=
  match v with
  | JList items => Return (l ++ items)
  | JDict d => Return (l ++ map (fun kv => JStr (fst kv)) d)
  | JStr s => Return (l ++ chars s)
  | _ => Raise TypeError
  end.

(** *** [int(s)] on a string

    Surrounding whitespace is stripped, one sign is allowed, and single
    underscores may separate digits.  The characters are the 256 code points
    a header value can hold; among them only [0-9] are decimal digits.
    Whitespace, for [int], is tab to carriage return, the space, and the two
    code points above 127 that are spaces (next line, no-break space); the
    separators U+001C to U+001F are no whitespace here, although [str.strip]
    removes them.  A literal of more than [max_str_digits] digits is
    refused, as the interpreter's default limit has it. *)

Definition is_space (c : ascii) : bool :=
  let n := nat_of_ascii c in
  (((9 <=? n) && (n <=? 13)) || (n =? 32) || (n =? 133) || (n =? 160))%nat.

Definition digit_of (c : ascii) : option Z :=
  let n := nat_of_ascii c in
  if ((48 <=? n) && (n <=? 57))%nat then Some (Z.of_nat (n - 48)) else None.

Fixpoint all_space (s : string) : bool :=
  match s with
  | EmptyString => true
  | String c s' => is_space c && all_space s'
  end.

Fixpoint lstrip (s : string) : string :=
  match s with
  | EmptyString => EmptyString
  | String c s' => if is_space c then lstrip s' else s
  end.

Fixpoint digits (acc : Z) (s : string) : option Z :=
  match s with
  | EmptyString => Some acc
  | String c s' =>
      match digit_of c with
      | Some d => digits (10 * acc + d) s'
      | None =>
          if Ascii.eqb c "_"
          then match s' with
               | String c' s'' =>
                   match digit_of c' with
                   | Some d => digits (10 * acc + d) s''
                   | None => None
                   end
               | EmptyString => None
               end
          else if all_space s then Some acc else None
      end
  end.

Definition unsigned (s : string) : option Z :=
  match s with
  | String c s' =>
      match digit_of c with
      | Some d => digits d s'
      | None => None
      end
  | EmptyString => None
  end.

(** [sys.int_info.default_max_str_digits] *)
Definition max_str_digits : Z := 4300.

(** The digits of a literal, leading zeros included, underscores not. *)
Fixpoint count_digits (s : string) : Z :=
  match s with
  | EmptyString => 0
  | String c s' =>
      (match digit_of c with Some _ => 1 | None => 0 end) + count_digits s'
  end.

Definition int_of_str (s : string) : result Z :=
  let parsed :=
    match lstrip s with
    | String c s' =>
        if Ascii.eqb c "-" then option_map Z.opp (unsigned s')
        else if Ascii.eqb c "+" then unsigned s'
        else unsigned (String c s')
    | EmptyString => None
    end in
  match parsed with
  | Some n => if max_str_digits <? count_digits s then Raise ValueError
              else Return n
  | None => Raise ValueError
  end.

End Py.

(** ** The [requests] library, as far as the fetcher uses it *)

Module Requests.
Import Py.

Record Response : Type := mkResponse {
  status_code : Z;
  headers : list (string * string);
  body : option json          (* [None]: the body is not JSON *)
}.

Record Request : Type := mkRequest {
  url : string;
  params : option (list (string * json));
  timeout : Z
}.

(** What one [session.get] does. *)
Inductive Event : Type :=
| Resp (r : Response)
| NetworkError        (* [ReadTimeout] or [ConnectionError] *)
| RequestError.       (* any other [RequestException] *)

(** [Response.__bool__] is [Response.ok]: false exactly when
    [raise_for_status] would raise, that is for a 4xx or 5xx status. *)
Definition ok (r : Response) : bool :=
  negb ((400 <=? status_code r) && (status_code r <? 600)).

(** Truth value of a variable that holds a response or [None]. *)
Definition truthy_response (response : option Response) : bool :=
  match response with
  | Some r => ok r
  | None => false
  end.

Definition lower_ascii (c : ascii) : ascii :=
  let n := nat_of_ascii c in
  if ((65 <=? n) && (n <=? 90))%nat then ascii_of_nat (n + 32) else c.

Fixpoint lower (s : string) : string :=
  match s with
  | EmptyString => EmptyString
  | String c s' => String (lower_ascii c) (lower s')
  end.

(** [response.headers.get(name)]: header names compare without case. *)
Fixpoint headers_get (h : list (string * string)) (name : string)
  : option string :=
  match h with
  | [] => None
  | (k, v) :: h' =>
      if String.eqb (lower k) (lower name) then Some v else headers_get h' name
  end.

End Requests.

(** ** The class [GitHubTrafficFetcher] *)

Module Fetcher.
Import Py Requests.

Local Open Scope string_scope.
Local Open Scope list_scope.
Local Open Scope Z_scope.

(** The fields [__init__] sets and no method assigns again.  The headers of
    the session and its connection pool play no part in what follows. *)
Record GitHubTrafficFetcher : Type := mkFetcher {
  token : string;
  username : string;
  base_url : string;
  self_timeout : Z;
  max_retries : nat;
  repo_delay : Q;
  api_call_delay : Q
}.

Definition init (token username : string) : GitHubTrafficFetcher :=
  {| token := token;
     username := username;
     base_url := "https://api.github.com";
     self_timeout := 30;
     max_retries := 3;
     repo_delay := 2;
     api_call_delay := 1 # 2 |}.

(** What changes during a run: the field [self.retry_delay], the clock, and
    the two logs an observer of the run keeps (in the order things happened). *)
Record World : Type := mkWorld {
  retry_delay : Z;
  clock : Q;
  slept : list Q;
  sent : list Request
}.

(** The state [__init__] leaves, with the clock at [t]. *)
Definition fresh (t : Q) : World :=
  {| retry_delay := 2; clock := t; slept := []; sent := [] |}.

Definition M (A : Type) : Type := World -> result A * World.

Definition ret {A} (a : A) : M A := fun w => (Return a, w).

Definition raise {A} (e : exn) : M A := fun w => (Raise e, w).

Definition stop {A} (c : cut) : M A := fun w => (Cut c, w).

Definition bind {A B} (m : M A) (k : A -> M B) : M B :=
  fun w =>
    match m w with
    | (Return a, w') => k a w'
    | (Raise e, w') => (Raise e, w')
    | (Cut c, w') => (Cut c, w')
    end.

Definition lift {A} (r : result A) : M A := fun w => (r, w).

Notation "x <- m ;; k" := (bind m (fun x => k))
  (at level 61, m at next level, right associativity).
Notation "m ;; k" := (bind m (fun _ => k))
  (at level 61, right associativity).

(** [time.time()] *)
Definition time : M Q := fun w => (Return (clock w), w).

Definition asleep (d : Q) (w : World) : World :=
  {| retry_delay := retry_delay w;
     clock := (clock w + d)%Q;
     slept := slept w ++ [d];
     sent := sent w |}.

(** The longest sleep, in whole seconds, that [time.sleep] takes: it keeps
    the duration as nanoseconds in a signed 64-bit integer. *)
Definition longest_sleep : Z := 9223372036.

(** [time.sleep(d)]: a negative duration is a [ValueError].  Durations
    beyond [longest_sleep] seconds, either way, are outside this model (the
    interpreter raises [OverflowError] on them before it looks at the sign);
    the laws about waits that a server dictates state that range. *)
Definition sleep (d : Q) : M unit :=
  fun w =>
    if Qle_bool 0 d then (Return tt, asleep d w) else (Raise ValueError, w).

Definition get_retry_delay : M Z := fun w => (Return (retry_delay w), w).

Definition with_retry_delay (d : Z) (w : World) : World :=
  {| retry_delay := d; clock := clock w; slept := slept w; sent := sent w |}.

Definition set_retry_delay (d : Z) : M unit :=
  fun w => (Return tt, with_retry_delay d w).

Definition requested (req : Request) (w : World) : World :=
  {| retry_delay := retry_delay w;
     clock := clock w;
     slept := slept w;
     sent := sent w ++ [req] |}.

(** [response.status_code] and [response.json()] on a variable that may hold
    [None]. *)
Definition attr_status_code (response : option Response) : M Z :=
  match response with
  | Some r => ret (status_code r)
  | None => raise AttributeError
  end.

Definition call_json (response : option Response) : M json :=
  match response with
  | Some r => match body r with
              | Some j => ret j
              | None => raise JSONDecodeError
              end
  | None => raise AttributeError
  end.

Section Methods.

Variable self : GitHubTrafficFetcher.

(** The remote side: what the [n]-th [session.get] of the run (counted from
    0) answers to a request. *)
Variable server : nat -> Request -> Event.

(** [self.session.get(url, params=params, timeout=self.timeout)] *)
Definition request (url : string) (params : option (list (string * json)))
  : Request :=
  {| url := url; params := params; timeout := self_timeout self |}.

Definition session_get (url : string) (params : option (list (string * json)))
  : M Event :=
  fun w =>
    let req := request url params in
    (Return (server (List.length (sent w)) req), requested req w).

(** [sleep_time] is the code's expression, evaluated over the rationals. *)
Definition check_rate_limit (response : option Response) : M unit :=
  match response with
  | None => ret tt                                    (* if not response: *)
  | Some r =>
      if negb (ok r) then ret tt                      (* if not response: *)
      else
        let remaining := headers_get (headers r) "X-RateLimit-Remaining" in
        let reset_time := headers_get (headers r) "X-RateLimit-Reset" in
        low <- match remaining with
               | Some s =>
                   if truthy_str s
                   then n <- lift (int_of_str s) ;; ret (n <? 50)
                   else ret false
               | None => ret false
               end ;;
        if low : bool then
          match reset_time with
          | Some t =>
              if truthy_str t
              then
                reset_timestamp <- lift (int_of_str t) ;;
                now <- time ;;
                let sleep_time :=
                  (Qmax (inject_Z reset_timestamp - now) 0 + 5)%Q in
                sleep sleep_time
              else sleep 60
          | None => sleep 60
          end
        else ret tt
  end.

(** [time.sleep(self.retry_delay)] then [self.retry_delay *= 2] *)
Definition back_off : M unit :=
  d <- get_retry_delay ;;
  sleep (inject_Z d) ;;
  set_retry_delay (d * 2).

(** [int(response.headers.get('Retry-After', 60))] *)
Definition retry_after_of (r : Response) : M Z :=
  match headers_get (headers r) "Retry-After" with
  | Some s => lift (int_of_str s)
  | None => ret 60
  end.

(** The body of [for attempt in range(self.max_retries)], over what is left
    of the range; falling off its end is the final [return None]. *)
Fixpoint attempts (url : string) (params : option (list (string * json)))
    (range : list nat) : M (option Response) :=
  match range with
  | [] => ret None
  | attempt :: range' =>
      ev <- session_get url params ;;
      match ev with
      | Resp response =>
          if status_code response =? 429
          then
            retry_after <- retry_after_of response ;;
            sleep (inject_Z retry_after) ;;
            attempts url params range'                          (* continue *)
          else
            check_rate_limit (Some response) ;;
            set_retry_delay 2 ;;
            ret (Some response)
      | NetworkError =>
          if Z.of_nat attempt <? Z.of_nat (max_retries self) - 1
          then
            back_off ;;
            attempts url params range'
          else ret None
      | RequestError => ret None
      end
  end.

Definition make_request (url : string) (params : option (list (string * json)))
  : M (option Response) :=
  attempts url params (seq 0 (max_retries self)).

Definition traffic_url (repo_name suffix : string) : string :=
  (base_url self ++ "/repos/" ++ username self ++ "/" ++ repo_name
     ++ "/traffic/" ++ suffix)%string.

Definition get_repo_views (repo_name : string) : M json :=
  response <- make_request (traffic_url repo_name "views") None ;;
  is_200 <- (if truthy_response response
             then sc <- attr_status_code response ;; ret (sc =? 200)
             else ret false) ;;
  if is_200 : bool then call_json response
  else
    (if truthy_response response
     then attr_status_code response ;; ret tt                     (* print *)
     else ret tt) ;;
    ret JNull.

(** The three methods below share one body and differ in the endpoint. *)
Definition get_or_report (endpoint : string) : M json :=
  response <- make_request endpoint None ;;
  is_200 <- (if truthy_response response
             then sc <- attr_status_code response ;; ret (sc =? 200)
             else ret false) ;;
  if is_200 : bool then call_json response
  else
    attr_status_code response ;;                                  (* print *)
    ret JNull.

Definition get_repo_clones (repo_name : string) : M json :=
  get_or_report (traffic_url repo_name "clones").

Definition get_repo_referrers (repo_name : string) : M json :=
  get_or_report (traffic_url repo_name "popular/referrers").

Definition get_popular_paths (repo_name : string) : M json :=
  get_or_report (traffic_url repo_name "popular/paths").

Definition get_repo_traffic_data (repo_name : string)
  : M (list (string * json)) :=
  let traffic_data := [] in
  views <- get_repo_views repo_name ;;
  let traffic_data := dict_set traffic_data "views" views in
  sleep (api_call_delay self) ;;
  clones <- get_repo_clones repo_name ;;
  let traffic_data := dict_set traffic_data "clones" clones in
  sleep (api_call_delay self) ;;
  referrers <- get_repo_referrers repo_name ;;
  let traffic_data := dict_set traffic_data "referrers" referrers in
  sleep (api_call_delay self) ;;
  popular_paths <- get_popular_paths repo_name ;;
  let traffic_data := dict_set traffic_data "popular_paths" popular_paths in
  ret traffic_data.

(** One request of the paginator's [while True]; [fuel] bounds the number
    of rounds. *)
Definition repos_url : string := (base_url self ++ "/user/repos")%string.

Fixpoint pages (fuel : nat) (params : list (string * json))
    (repos : list json) (page : Z) : M (list json) :=
  match fuel with
  | O => stop NoFuel
  | S fuel' =>
      let params := dict_set params "page" (JNum page) in
      response <- make_request repos_url (Some params) ;;
      match response with
      | None => ret repos                                          (* break *)
      | Some r =>
          if negb (status_code r =? 200) then ret repos            (* break *)
          else
            page_repos <- call_json response ;;
            if negb (truthy page_repos) then ret repos             (* break *)
            else
              repos <- lift (extend repos page_repos) ;;
              let page := page + 1 in
              sleep (1 # 2) ;;
              pages fuel' params repos page
      end
  end.

Definition get_user_repos (fuel : nat) : M (list json) :=
  let params := [("per_page", JNum 100); ("type", JStr "owner")] in
  let repos := [] in
  let page := 1 in
  pages fuel params repos page.

(** A repository name used as a dictionary key and in a URL. *)
Definition as_key (v : json) : M string :=
  match v with
  | JStr s => ret s
  | JList _ | JDict _ => raise TypeError                   (* unhashable *)
  | _ => stop NonStringName
  end.

(** The body of [for i, repo in enumerate(repos, 1)], over what is left of
    the enumeration. *)
Fixpoint repositories (total_repos : Z) (i : Z) (repos : list json)
    (all_traffic_data : list (string * json)) : M (list (string * json)) :=
  match repos with
  | [] => ret all_traffic_data
  | repo :: repos' =>
      repo_name <- lift (subscript repo "name") ;;
      full_name <- lift (subscript repo "full_name") ;;
      description <- lift (subscript repo "description") ;;
      stars <- lift (subscript repo "stargazers_count") ;;
      forks <- lift (subscript repo "forks_count") ;;
      language <- lift (subscript repo "language") ;;
      created_at <- lift (subscript repo "created_at") ;;
      updated_at <- lift (subscript repo "updated_at") ;;
      key <- as_key repo_name ;;
      let all_traffic_data :=
        dict_set all_traffic_data key
          (JDict [("repository_info",
                   JDict [("name", repo_name);
                          ("full_name", full_name);
                          ("description", description);
                          ("stars", stars);
                          ("forks", forks);
                          ("language", language);
                          ("created_at", created_at);
                          ("updated_at", updated_at)])]) in
      traffic_data <- get_repo_traffic_data key ;;
      all_traffic_data <-
        match dict_get all_traffic_data key with
        | Some (JDict record) =>
            ret (dict_set all_traffic_data key
                   (JDict (dict_update record traffic_data)))
        | Some _ => raise AttributeError
        | None => raise KeyError
        end ;;
      (if i <? total_repos then sleep (repo_delay self) else ret tt) ;;
      repositories total_repos (i + 1) repos' all_traffic_data
  end.

Definition get_all_traffic_data (fuel : nat) : M (list (string * json)) :=
  repos <- get_user_repos fuel ;;
  if negb (truthy (JList repos)) then ret []
  else
    let all_traffic_data := [] in
    let total_repos := Z.of_nat (List.length repos) in
    repositories total_repos 1 repos all_traffic_data.

End Methods.

(** The three totals [print_summary] prints under [TOTALS:]. *)
Record Totals : Type := mkTotals {
  total_views : Z;
  total_unique_views : Z;
  total_clones : Z
}.

(** The block under [if views_data:]. *)
Definition add_views (views_data : json) (t : Totals) : result Totals :=
  if truthy views_data then
    rbind (method_get views_data "count" (JNum 0)) (fun repo_views =>
    rbind (method_get views_data "uniques" (JNum 0)) (fun repo_unique_views =>
    rbind (iadd (total_views t) repo_views) (fun tv =>
    rbind (iadd (total_unique_views t) repo_unique_views) (fun tu =>
    Return (mkTotals tv tu (total_clones t))))))
  else Return t.

(** The block under [if clones_data:]. *)
Definition add_clones (clones_data : json) (t : Totals) : result Totals :=
  if truthy clones_data then
    rbind (method_get clones_data "count" (JNum 0)) (fun repo_clones =>
    rbind (iadd (total_clones t) repo_clones) (fun tc =>
    Return (mkTotals (total_views t) (total_unique_views t) tc)))
  else Return t.

(** The body of [for repo_name, data in all_traffic_data.items()]. *)
Fixpoint summary (items : list (string * json)) (t : Totals) : result Totals :=
  match items with
  | [] => Return t
  | (repo_name, data) :: items' =>
      rbind (method_get data "views" JNull) (fun views_data =>
      rbind (method_get data "clones" JNull) (fun clones_data =>
      rbind (add_views views_data t) (fun t =>
      rbind (add_clones clones_data t) (fun t =>
      summary items' t))))
  end.

Definition print_summary (all_traffic_data : list (string * json))
  : result Totals :=
  summary all_traffic_data (mkTotals 0 0 0).

End Fetcher.

(** ** Scripted servers and fixtures *)

Module Scenario.
Import Py Requests Fetcher.

Local Open Scope string_scope.
Local Open Scope list_scope.
Local Open Scope Z_scope.

Definition fetcher : GitHubTrafficFetcher := init "secret" "LiteObject".

(** A server that plays [events] in order, whatever is asked, and answers
    [otherwise] once they are used up. *)
Definition script (events : list Event) (otherwise : Event)
  : nat -> Request -> Event :=
  fun n _ => nth n events otherwise.

Definition counts (count uniques : Z) : json :=
  JDict [("count", JNum count); ("uniques", JNum uniques)].

Definition success : Response := mkResponse 200 [] (Some (counts 10 4)).

(** A 429 without a [Retry-After] header. *)
Definition throttled : Response := mkResponse 429 [] None.

Definition five_throttles : nat -> Request -> Event :=
  script (repeat (Resp throttled) 5) (Resp success).

(** A 429 whose [Retry-After] is an HTTP date, the header's other legal form. *)
Definition throttled_until_date : Response :=
  mkResponse 429 [("Retry-After", "Wed, 21 Oct 2015 07:28:00 GMT")] None.

Definition garbled_remaining : Response :=
  mkResponse 200 [("X-RateLimit-Remaining", "unknown")] (Some (counts 10 4)).

Definition offline : nat -> Request -> Event := fun _ _ => NetworkError.

(** The quota is used up: the API answers 403 with a zero remaining count. *)
Definition quota_exhausted : Response :=
  mkResponse 403
    [("X-RateLimit-Remaining", "0"); ("X-RateLimit-Reset", "1700000000")]
    None.

(** The same headers on a response that is no error. *)
Definition quota_nearly_exhausted : Response :=
  mkResponse 200 (headers quota_exhausted) (Some (counts 10 4)).

(** The last call above the threshold of 50. *)
Definition fifty_left : Response :=
  mkResponse 200
    [("X-RateLimit-Remaining", "50"); ("X-RateLimit-Reset", "1000")]
    (Some (counts 10 4)).

(** A 429 that asks for a negative wait. *)
Definition throttled_backwards : Response :=
  mkResponse 429 [("Retry-After", "-1")] None.


(** Every endpoint answers, except that the clones endpoint of repository
    ["a"] cannot be reached. *)
Definition clones_down : nat -> Request -> Event :=
  fun _ req =>
    if String.eqb (url req) (traffic_url fetcher "a" "clones")
    then NetworkError
    else Resp success.

(** A burst of network failures, then a failure followed by an answer. *)
Definition burst_then_hiccup : nat -> Request -> Event :=
  script (repeat NetworkError 4) (Resp success).

Definition repo (name : string) (stars : Z) : json :=
  JDict [("id", JNum 1);
         ("name", JStr name);
         ("full_name", JStr ("LiteObject/" ++ name));
         ("description", JNull);
         ("stargazers_count", JNum stars);
         ("forks_count", JNum 0);
         ("language", JStr "Python");
         ("created_at", JStr "2024-01-01T00:00:00Z");
         ("updated_at", JStr "2025-01-01T00:00:00Z")].

Definition page_of (req : Request) : option json :=
  match params req with
  | Some p => dict_get p "page"
  | None => None
  end.

Definition json_page (items : list json) : Response :=
  mkResponse 200 [] (Some (JList items)).

Definition page1 : list json := [repo "r1" 1; repo "r2" 2].
Definition page2 : list json := [repo "r3" 3].
Definition page3 : list json := [repo "r4" 4; repo "r5" 5].

(** Three pages of repositories, then empty pages. *)
Definition three_pages : nat -> Request -> Event :=
  fun _ req =>
    match page_of req with
    | Some (JNum 1) => Resp (json_page page1)
    | Some (JNum 2) => Resp (json_page page2)
    | Some (JNum 3) => Resp (json_page page3)
    | _ => Resp (json_page [])
    end.

(** Two pages of repositories, then a page whose body is not JSON. *)
Definition garbled_third_page : nat -> Request -> Event :=
  fun _ req =>
    match page_of req with
    | Some (JNum 1) => Resp (json_page page1)
    | Some (JNum 2) => Resp (json_page page2)
    | _ => Resp (mkResponse 200 [] None)
    end.

(** The user owns ["a"] and ["b"]; the listing is one page long. *)
Definition listing (req : Request) : Event :=
  match page_of req with
  | Some (JNum 1) => Resp (json_page [repo "a" 7; repo "b" 0])
  | _ => Resp (json_page [])
  end.

(** Every metric of ["a"] is served, with 10 views and 2 clones; the views of
    ["b"] are refused, its clones are 5. *)
Definition end_to_end : nat -> Request -> Event :=
  fun _ req =>
    let u := url req in
    if String.eqb u (repos_url fetcher) then listing req
    else if String.eqb u (traffic_url fetcher "a" "views")
    then Resp (mkResponse 200 [] (Some (counts 10 4)))
    else if String.eqb u (traffic_url fetcher "a" "clones")
    then Resp (mkResponse 200 [] (Some (counts 2 1)))
    else if String.eqb u (traffic_url fetcher "b" "views")
    then Resp (mkResponse 403 [] None)
    else if String.eqb u (traffic_url fetcher "b" "clones")
    then Resp (mkResponse 200 [] (Some (counts 5 3)))
    else Resp (mkResponse 200 [] (Some (JList []))).

(** The report of that run. *)
Definition info (name : string) (stars : Z) : json :=
  JDict [("name", JStr name);
         ("full_name", JStr ("LiteObject/" ++ name));
         ("description", JNull);
         ("stars", JNum stars);
         ("forks", JNum 0);
         ("language", JStr "Python");
         ("created_at", JStr "2024-01-01T00:00:00Z");
         ("updated_at", JStr "2025-01-01T00:00:00Z")].

Definition end_to_end_report : list (string * json) :=
  [("a", JDict [("repository_info", info "a" 7);
                ("views", counts 10 4);
                ("clones", counts 2 1);
                ("referrers", JList []);
                ("popular_paths", JList [])]);
   ("b", JDict [("repository_info", info "b" 0);
                ("views", JNull);
                ("clones", counts 5 3);
                ("referrers", JList []);
                ("popular_paths", JList [])])].

(** The listing is served but every traffic endpoint is refused. *)
Definition traffic_refused : nat -> Request -> Event :=
  fun _ req =>
    if String.eqb (url req) (repos_url fetcher) then listing req
    else Resp (mkResponse 403 [] None).

Definition refused_report : list (string * json) :=
  [("a", JDict [("repository_info", info "a" 7);
                ("views", JNull);
                ("clones", JNull);
                ("referrers", JNull);
                ("popular_paths", JNull)]);
   ("b", JDict [("repository_info", info "b" 0);
                ("views", JNull);
                ("clones", JNull);
                ("referrers", JNull);
                ("popular_paths", JNull)])].

(** Every endpoint answers, except that the views endpoint of repository
    ["a"] cannot be reached. *)
Definition views_down : nat -> Request -> Event :=
  fun _ req =>
    if String.eqb (url req) (traffic_url fetcher "a" "views")
    then NetworkError
    else Resp success.

(** The listing is served, and every other endpoint answers the same
    counts. *)
Definition same_counts : nat -> Request -> Event :=
  fun _ req =>
    if String.eqb (url req) "https://api.github.com/user/repos"
    then listing req
    else Resp (mkResponse 200 [] (Some (counts 3 1))).

Definition same_counts_report : list (string * json) :=
  [("a", JDict [("repository_info", info "a" 7);
                ("views", counts 3 1);
                ("clones", counts 3 1);
                ("referrers", counts 3 1);
                ("popular_paths", counts 3 1)]);
   ("b", JDict [("repository_info", info "b" 0);
                ("views", counts 3 1);
                ("clones", counts 3 1);
                ("referrers", counts 3 1);
                ("popular_paths", counts 3 1)])].

End Scenario.

(** ** What the specification says, in its own words *)

Module Spec.
Import Py Requests Fetcher.

Local Open Scope string_scope.
Local Open Scope list_scope.
Local Open Scope Z_scope.


(** The request the paginator sends for one page. *)
Definition page_request (self : GitHubTrafficFetcher) (page : Z) : Request :=
  request self (repos_url self)
    (Some [("per_page", JNum 100); ("type", JStr "owner");
           ("page", JNum page)]).

(** The dictionary [params] of the paginator, whether it is still as
    [get_user_repos] made it or already holds an earlier page number. *)
Definition paged (params : list (string * json)) : Prop :=
  forall page : Z,
    dict_set params "page" (JNum page)
    = [("per_page", JNum 100); ("type", JStr "owner"); ("page", JNum page)].

(** What the transport returns, and how many requests it sends for it, when
    it is called as the [n]-th and following requests reach the server. *)
Definition transport (self : GitHubTrafficFetcher)
    (server : nat -> Request -> Event) (n : nat)
    (url : string) (params : option (list (string * json)))
  : result (option Response) * nat :=
  let r := make_request self (fun i => server (n + i)%nat) url params
             (fresh 0) in
  (fst r, List.length (sent (snd r))).

(** The three ways the paginator stops: the transport returns [None], the
    status is not 200, or the page is empty. *)
Inductive stops : option Response -> Prop :=
| stops_failure :
    stops None
| stops_status (r : Response) :
    status_code r <> 200 -> stops (Some r)
| stops_empty (r : Response) (j : json) :
    status_code r = 200 -> body r = Some j -> truthy j = false ->
    stops (Some r).

(** [serves self server n page pgs calls c]: called for [page],
    [page + 1], ... as the [n]-th and following requests reach the server,
    the transport returns one after the other the pages of items [pgs], none
    of them empty, sending [calls] requests for each; called for the page
    after them it returns what stops the paginator, with [c] requests sent
    for it. *)
Inductive serves (self : GitHubTrafficFetcher)
    (server : nat -> Request -> Event)
  : nat -> Z -> list (list json) -> list nat -> nat -> Prop :=
| serves_last (n : nat) (page : Z) (res : option Response) (c : nat) :
    transport self server n (repos_url self)
      (params (page_request self page)) = (Return res, c) ->
    stops res ->
    serves self server n page [] [] c
| serves_page (n : nat) (page : Z) (r : Response) (items : list json)
    (k : nat) (rest : list (list json)) (calls : list nat) (c : nat) :
    transport self server n (repos_url self)
      (params (page_request self page)) = (Return (Some r), k) ->
    status_code r = 200 ->
    body r = Some (JList items) ->
    items <> [] ->
    serves self server (n + k) (page + 1) rest calls c ->
    serves self server n page (items :: rest) (k :: calls) c.

(** The requests for the pages [page], [page + 1], ..., as many for each as
    [calls] says. *)
Fixpoint page_requests (self : GitHubTrafficFetcher) (page : Z)
    (calls : list nat) : list Request :=
  match calls with
  | [] => []
  | k :: calls' =>
      repeat (page_request self page) k
      ++ page_requests self (page + 1) calls'
  end.

(** The metric of a record, [JNull] when it is absent. *)
Definition field_of (data : json) (field : string) : json :=
  match data with
  | JDict d =>
      match dict_get d field with
      | Some v => v
      | None => JNull
      end
  | _ => JNull
  end.

(** The number a metric holds under [key]; zero for an absent metric and
    for a metric without that key. *)
Definition count_in (metric : json) (key : string) : Z :=
  match metric with
  | JDict m =>
      match dict_get m key with
      | Some (JNum n) => n
      | _ => 0
      end
  | _ => 0
  end.

(** What a record contributes to the sum of [key] over [field]. *)
Definition reading (data : json) (field key : string) : Z :=
  count_in (field_of data field) key.

Definition total (report : list (string * json)) (field key : string) : Z :=
  fold_right (fun kv acc => reading (snd kv) field key + acc) 0 report.

(** The shape the aggregator gives a report: every record is a dictionary
    whose [views] and [clones] are absent or dictionaries of numbers. *)
Definition number_or_missing (metric : list (string * json)) (key : string)
  : bool :=
  match dict_get metric key with
  | Some (JNum _) | None => true
  | Some _ => false
  end.

Definition metric_ok (keys : list string) (v : option json) : bool :=
  match v with
  | None | Some JNull => true
  | Some (JDict metric) => forallb (number_or_missing metric) keys
  | Some _ => false
  end.

Definition record_ok (data : json) : bool :=
  match data with
  | JDict d =>
      metric_ok ["count"; "uniques"] (dict_get d "views")
      && metric_ok ["count"] (dict_get d "clones")
  | _ => false
  end.

Definition report_ok (report : list (string * json)) : bool :=
  forallb (fun kv => record_ok (snd kv)) report.

(** The report has a record under the name of [repo], and the record's
    [repository_info] has the eight fields, its [name] being that key. *)
Definition has_record (report : list (string * json)) (repo : json) : Prop :=
  exists (name : string) (record info : list (string * json)),
    subscript repo "name" = Return (JStr name)
    /\ dict_get report name = Some (JDict record)
    /\ dict_get record "repository_info" = Some (JDict info)
    /\ map fst info
       = ["name"; "full_name"; "description"; "stars"; "forks"; "language";
          "created_at"; "updated_at"]
    /\ dict_get info "name" = Some (JStr name).

End Spec.

(** ** Comparing two runs *)

Module Compare.
Import Py Requests Fetcher.

Local Open Scope list_scope.
Local Open Scope Z_scope.

(** From where the two runs stand, the two servers answer alike. *)
Definition same_answers (server1 server2 : nat -> Request -> Event)
    (w1 w2 : World) : Prop :=
  forall (i : nat) (req : Request),
    server1 (List.length (sent w1) + i)%nat req
    = server2 (List.length (sent w2) + i)%nat req.

(** Worlds that may differ in the clock, the logs and the backoff delay, as
    long as the delay is not negative (it starts at 2 and is only ever reset
    to 2 or doubled). *)
Definition alike (server1 server2 : nat -> Request -> Event)
    (w1 w2 : World) : Prop :=
  same_answers server1 server2 w1 w2
  /\ 0 <= retry_delay w1
  /\ 0 <= retry_delay w2.

(** Two computations agree when, from alike worlds, they end the same way,
    send the same requests, and leave alike worlds. *)
Definition agree {A : Type} (server1 server2 : nat -> Request -> Event)
    (m1 m2 : M A) : Prop :=
  forall w1 w2 : World,
    alike server1 server2 w1 w2 ->
    fst (m1 w1) = fst (m2 w2)
    /\ (exists l : list Request,
          sent (snd (m1 w1)) = sent w1 ++ l
          /\ sent (snd (m2 w2)) = sent w2 ++ l)
    /\ alike server1 server2 (snd (m1 w1)) (snd (m2 w2)).

(** A computation that sends nothing. *)
Definition silent {A : Type} (m : M A) : Prop :=
  forall w : World, sent (snd (m w)) = sent w.

(** A computation that sends [req], some number of times, and nothing
    else. *)
Definition sends_only {A : Type} (req : Request) (m : M A) : Prop :=
  forall w : World,
    exists c : nat, sent (snd (m w)) = sent w ++ repeat req c.

(** A computation that leaves the log of sleeps as it was, or longer. *)
Definition only_appends {A : Type} (m : M A) : Prop :=
  forall w : World, exists l : list Q, slept (snd (m w)) = slept w ++ l.

End Compare.

(** ** Vocabulary for further properties of the code *)

Module Laws.
Import Py Requests Fetcher.

Local Open Scope string_scope.
Local Open Scope list_scope.
Local Open Scope Z_scope.

(** A computation that sends [req] at most [n] times, and nothing else. *)
Definition sends_upto {A : Type} (req : Request) (n : nat) (m : M A) : Prop :=
  forall w : World,
    exists c : nat,
      (c <= n)%nat /\ sent (snd (m w)) = sent w ++ repeat req c.

(** A computation that keeps a property of the world, however it ends. *)
Definition keeps {A : Type} (P : World -> Prop) (m : M A) : Prop :=
  forall w : World, P w -> P (snd (m w)).

(** The wait a 429 asks for: its [Retry-After] read as an integer, 60 when
    the header is absent. *)
Inductive retry_after : Response -> Z -> Prop :=
| retry_after_default (r : Response) :
    headers_get (headers r) "Retry-After" = None ->
    retry_after r 60
| retry_after_given (r : Response) (s : string) (t : Z) :
    headers_get (headers r) "Retry-After" = Some s ->
    int_of_str s = Return t ->
    retry_after r t.


(** The world after [k] failed attempts, each followed by a backoff. *)
Fixpoint after_failures (req : Request) (k : nat) (w : World) : World :=
  match k with
  | O => w
  | S k' =>
      after_failures req k'
        (with_retry_delay (retry_delay w * 2)
           (asleep (inject_Z (retry_delay w)) (requested req w)))
  end.


(** The sleeps [d], [2 d], [4 d], ..., [k] of them. *)
Definition backoffs (d : Z) (k : nat) : list Q :=
  map (fun i => inject_Z (d * 2 ^ Z.of_nat i)) (seq 0 k).

(** The remaining-calls header does not call for a sleep: it is absent,
    empty, or reads as an integer of at least 50. *)
Inductive enough_calls_left (r : Response) : Prop :=
| calls_unknown :
    headers_get (headers r) "X-RateLimit-Remaining" = None ->
    enough_calls_left r
| calls_blank :
    headers_get (headers r) "X-RateLimit-Remaining" = Some "" ->
    enough_calls_left r
| calls_plenty (s : string) (n : Z) :
    headers_get (headers r) "X-RateLimit-Remaining" = Some s ->
    int_of_str s = Return n ->
    50 <= n ->
    enough_calls_left r.



(** Asked for [page] and the pages after it, from its [n]-th request on, the
    transport returns [good] pages of items one after the other, none of
    them empty, and for the page after them a response with status 200
    whose body is not JSON. *)
Inductive garbled_after (self : GitHubTrafficFetcher)
    (server : nat -> Request -> Event)
  : nat -> Z -> nat -> Prop :=
| garbled_now (n : nat) (page : Z) (r : Response) (c : nat) :
    Spec.transport self server n (repos_url self)
      (params (Spec.page_request self page)) = (Return (Some r), c) ->
    status_code r = 200 ->
    body r = None ->
    garbled_after self server n page 0
| garbled_later (n : nat) (page : Z) (r : Response) (items : list json)
    (k : nat) (good : nat) :
    Spec.transport self server n (repos_url self)
      (params (Spec.page_request self page)) = (Return (Some r), k) ->
    status_code r = 200 ->
    body r = Some (JList items) ->
    items <> [] ->
    garbled_after self server (n + k) (page + 1) good ->
    garbled_after self server n page (S good).

(** What a metric method makes of a response: the decoded body of a 200,
    [None] for any other status. *)
Definition body_or_none (r : Response) : result json :=
  if status_code r =? 200
  then match body r with
       | Some j => Return j
       | None => Raise JSONDecodeError
       end
  else Return JNull.

(** The three metric methods that share one body. *)
Inductive endpoint : Type := Clones | Referrers | Paths.

Definition suffix (e : endpoint) : string :=
  match e with
  | Clones => "clones"
  | Referrers => "popular/referrers"
  | Paths => "popular/paths"
  end.

Definition method (self : GitHubTrafficFetcher)
    (server : nat -> Request -> Event) (e : endpoint) : string -> M json :=
  match e with
  | Clones => get_repo_clones self server
  | Referrers => get_repo_referrers self server
  | Paths => get_popular_paths self server
  end.

(** The requests [reqs], each sent as often as [counts] says, in order. *)
Definition bursts (reqs : list Request) (counts : list nat) : list Request :=
  flat_map (fun p => repeat (fst p) (snd p)) (combine reqs counts).

(** A computation that sends the requests [reqs] in this order, each at most
    [n] times (not at all, if it ends before), and nothing else. *)
Definition sends_bursts {A : Type} (reqs : list Request) (n : nat) (m : M A)
  : Prop :=
  forall w : World,
    exists counts : list nat,
      List.length counts = List.length reqs
      /\ Forall (fun c => (c <= n)%nat) counts
      /\ sent (snd (m w)) = sent w ++ bursts reqs counts.

(** The name of a repository as the aggregator reads it, and a key of the
    report seen as such a name. *)
Definition name_of (repo : json) : result json := subscript repo "name".

Definition key_name (kv : string * json) : result json :=
  Return (JStr (fst kv)).

(** A record of the report: the repository's info and the four metrics. *)
Definition five_fields (record : json) : Prop :=
  exists (info : list (string * json))
         (views clones referrers popular_paths : json),
    record = JDict [("repository_info", JDict info);
                    ("views", views);
                    ("clones", clones);
                    ("referrers", referrers);
                    ("popular_paths", popular_paths)].

(** The views and clones endpoints answer a 200 with nothing but a
    dictionary whose [count] and [uniques], where present, are numbers (or
    with [null]). *)
Definition counts_served (self : GitHubTrafficFetcher)
    (server : nat -> Request -> Event) : Prop :=
  forall (n : nat) (repo_name suffix : string) (r : Response) (j : json),
    suffix = "views" \/ suffix = "clones" ->
    server n (request self (traffic_url self repo_name suffix) None)
    = Resp r ->
    status_code r = 200 ->
    body r = Some j ->
    Spec.metric_ok ["count"; "uniques"] (Some j) = true.

(** A computation all of whose requests satisfy [P]. *)
Definition sends_such {A : Type} (P : Request -> Prop) (m : M A) : Prop :=
  forall w : World,
    exists l : list Request,
      sent (snd (m w)) = sent w ++ l /\ Forall P l.

(** A request for some page of the listing, from page 1 on, with the page
    size and the filter [get_user_repos] sets. *)
Definition listing_request (self : GitHubTrafficFetcher) (req : Request)
  : Prop :=
  exists page : Z, 1 <= page /\ req = Spec.page_request self page.

(** The [n]-th request, when it is [req], is answered at once by a response
    that is no 429, calls for no throttling, and holds the metric [v] (its
    decoded body if its status is 200, [None] otherwise). *)
Definition answered (server : nat -> Request -> Event) (n : nat)
    (req : Request) (v : json) : Prop :=
  exists r : Response,
    server n req = Resp r
    /\ status_code r <> 429
    /\ enough_calls_left r
    /\ body_or_none r = Return v.

End Laws.

(** ** The analysis script [analyze_traffic_data.py]

    The script loads the report that [app.py] saved, pairs every repository
    with its view count and its clone count, and charts the five largest of
    each.  Loading the file and drawing the charts are not modelled; the
    lists that are charted are. *)

Module Analyze.
Import Py.

Local Open Scope string_scope.
Local Open Scope list_scope.
Local Open Scope Z_scope.

(** [v or {}] *)
Definition or_empty (v : json) : json :=
  if truthy v then v else JDict [].

(** The body of [for repo_name, repo_data in data.items()], over what is
    left of the items; the result is the pair of [repo_views] and
    [repo_clones]. *)
Fixpoint counts (items : list (string * json))
    (repo_views repo_clones : list (string * json))
  : result (list (string * json) * list (string * json)) :=
  match items with
  | [] => Return (repo_views, repo_clones)
  | (repo_name, repo_data) :: items' =>
      rbind (method_get repo_data "views" JNull) (fun v =>
      let views := or_empty v in
      rbind (method_get repo_data "clones" JNull) (fun c =>
      let clones := or_empty c in
      rbind (method_get views "count" (JNum 0)) (fun view_count =>
      rbind (method_get clones "count" (JNum 0)) (fun clone_count =>
      counts items'
        (repo_views ++ [(repo_name, view_count)])
        (repo_clones ++ [(repo_name, clone_count)])))))
  end.

Definition extract (data : list (string * json))
  : result (list (string * json) * list (string * json)) :=
  counts data [] [].

(** A count as Python compares it: an integer, a boolean being 0 or 1. *)
Definition as_int (v : json) : option Z :=
  match v with
  | JNum n => Some n
  | JBool b => Some (if b then 1 else 0)
  | _ => None
  end.

Definition count_of (entry : string * json) : Z :=
  match as_int (snd entry) with
  | Some n => n
  | None => 0
  end.






(** The row of a repository in the list of view or clone counts. *)
Definition row (field : string) (kv : string * json) : string * json :=
  (fst kv, JNum (Spec.reading (snd kv) field "count")).

Definition sum_counts (l : list (string * json)) : Z :=
  fold_right (fun entry acc => count_of entry + acc) 0 l.

End Analyze.

(** * Properties of the transport *)

Import Py Requests Fetcher.

Local Open Scope string_scope.
Local Open Scope list_scope.
Local Open Scope Z_scope.

(** ** Sleeping *)

Lemma sleep_nonneg (d : Q) (w : World) :
  (0 <= d)%Q -> sleep d w = (Return tt, asleep d w).
Proof.
  intros Hd. unfold sleep.
  apply Qle_bool_iff in Hd. rewrite Hd. reflexivity.
Qed.

Lemma inject_Z_nonneg (d : Z) : 0 <= d -> (0 <= inject_Z d)%Q.
Proof.
  intros Hd. unfold Qle, inject_Z. simpl. lia.
Qed.

Lemma throttle_wait_nonneg (x : Q) : (0 <= Qmax x 0 + 5)%Q.
Proof.
  assert (H0 : (0 <= Qmax x 0)%Q) by apply Q.le_max_r.
  assert (H5 : (0 <= 5)%Q) by (unfold Qle; simpl; lia).
  pose proof (Qplus_le_compat 0 (Qmax x 0) 0 5 H0 H5) as H.
  rewrite Qplus_0_l in H. exact H.
Qed.

Lemma back_off_nonneg (w : World) :
  0 <= retry_delay w ->
  back_off w =
  (Return tt,
   with_retry_delay (retry_delay w * 2) (asleep (inject_Z (retry_delay w)) w)).
Proof.
  intros Hd. unfold back_off, bind, get_retry_delay.
  rewrite sleep_nonneg by (apply inject_Z_nonneg; exact Hd).
  reflexivity.
Qed.

(** ** One round of the retry loop *)

Section Rounds.

Variable self : GitHubTrafficFetcher.
Variable server : nat -> Request -> Event.
Variables (url : string) (params : option (list (string * json))).

Let req : Request := request self url params.

(** A network failure before the last attempt: back off, double the delay,
    go round again. *)
Lemma attempts_network_error_retry (attempt : nat) (range : list nat)
    (w : World) :
  server (List.length (sent w)) req = NetworkError ->
  Z.of_nat attempt < Z.of_nat (max_retries self) - 1 ->
  0 <= retry_delay w ->
  attempts self server url params (attempt :: range) w =
  attempts self server url params range
    (with_retry_delay (retry_delay w * 2)
       (asleep (inject_Z (retry_delay w)) (requested req w))).
Proof.
  intros Hev Hlt Hd.
  cbn [attempts]. unfold bind at 1. unfold session_get. fold req.
  rewrite Hev.
  apply Z.ltb_lt in Hlt. rewrite Hlt.
  unfold bind at 1. rewrite back_off_nonneg by exact Hd. reflexivity.
Qed.

(** A network failure on the last attempt: give up, without sleeping. *)
Lemma attempts_network_error_last (attempt : nat) (range : list nat)
    (w : World) :
  server (List.length (sent w)) req = NetworkError ->
  Z.of_nat (max_retries self) - 1 <= Z.of_nat attempt ->
  attempts self server url params (attempt :: range) w =
  (Return None, requested req w).
Proof.
  intros Hev Hge.
  cbn [attempts]. unfold bind at 1. unfold session_get. fold req.
  rewrite Hev.
  apply Z.ltb_ge in Hge. rewrite Hge. reflexivity.
Qed.

(** Any other status than 429: throttle if need be, reset the delay, hand
    the response back. *)
Lemma attempts_response (attempt : nat) (range : list nat) (w : World)
    (r : Response) :
  server (List.length (sent w)) req = Resp r ->
  status_code r <> 429 ->
  attempts self server url params (attempt :: range) w =
  (check_rate_limit (Some r) ;; set_retry_delay 2 ;; ret (Some r))
    (requested req w).
Proof.
  intros Hev Hs.
  cbn [attempts]. unfold bind at 1. unfold session_get. fold req.
  rewrite Hev.
  apply Z.eqb_neq in Hs. rewrite Hs. reflexivity.
Qed.


End Rounds.

(** ** Throttling responses (429) *)

(** C1.  Five consecutive 429 responses followed by a success should give
    five waits and the success.  Here each 429 uses up one round of the
    [for] loop: after the third wait of 60 seconds (no [Retry-After] is
    sent) the loop is over and the call returns [None]; the fourth and fifth
    429 and the success are never requested. *)
Theorem five_throttles_exhaust_the_attempts :
  let r := make_request Scenario.fetcher Scenario.five_throttles
             "https://api.github.com/user/repos" None (fresh 0) in
  fst r = Return None
  /\ slept (snd r) = [60; 60; 60]%Q
  /\ List.length (sent (snd r)) = 3%nat.
Proof.
  vm_compute. repeat split.
Qed.

(** C3.  No exception should leave [make_request].  A 429 whose
    [Retry-After] is an HTTP date, and a 200 whose remaining-calls header is
    not a number, both make [int] raise [ValueError] inside the [try], which
    no [except] clause catches. *)
Theorem malformed_headers_raise :
  fst (make_request Scenario.fetcher
         (fun _ _ => Resp Scenario.throttled_until_date)
         "https://api.github.com/user/repos" None (fresh 0))
  = Raise ValueError
  /\ fst (make_request Scenario.fetcher
            (fun _ _ => Resp Scenario.garbled_remaining)
            "https://api.github.com/user/repos" None (fresh 0))
     = Raise ValueError.
Proof.
  split; vm_compute; reflexivity.
Qed.

(** ** Network failures *)

(** C4, as stated, fails: three network failures in a row give two sleeps,
    of 2 and 4 seconds, and no sleep of 8 seconds. *)
Lemma no_sleep_after_the_last_attempt :
  let r := make_request Scenario.fetcher Scenario.offline
             "https://api.github.com/user/repos" None (fresh 0) in
  fst r = Return None
  /\ slept (snd r) = [2; 4]%Q
  /\ slept (snd r) <> [2; 4; 8]%Q.
Proof.
  vm_compute. repeat split. intros H. discriminate H.
Qed.

(** C4, amended.  With three attempts allowed and the delay at [d], three
    network failures in a row make [make_request] sleep [d] and then [2 d]
    seconds between the attempts, send exactly three requests, return
    [None] after the third without sleeping again, and leave the delay at
    [4 d]. *)
Theorem network_errors_back_off_twice
    (self : GitHubTrafficFetcher) (server : nat -> Request -> Event)
    (url : string) (params : option (list (string * json))) (w : World) :
  max_retries self = 3%nat ->
  0 <= retry_delay w ->
  (forall i : nat, (i < 3)%nat ->
     server (List.length (sent w) + i)%nat (request self url params)
     = NetworkError) ->
  let d := retry_delay w in
  let req := request self url params in
  let r := make_request self server url params w in
  fst r = Return None
  /\ slept (snd r) = slept w ++ [inject_Z d; inject_Z (d * 2)]
  /\ sent (snd r) = sent w ++ [req; req; req]
  /\ retry_delay (snd r) = d * 2 * 2.
Proof.
  intros Hmax Hd Hsrv d req r. subst r.
  unfold make_request. rewrite Hmax. cbn [seq].
  rewrite attempts_network_error_retry.
  - rewrite attempts_network_error_retry.
    + rewrite attempts_network_error_last.
      * cbn [fst snd requested asleep with_retry_delay
               slept sent retry_delay].
        fold req. repeat rewrite <- app_assoc. cbn [app].
        repeat split.
      * cbn [requested asleep with_retry_delay sent].
        repeat rewrite length_app. cbn [List.length].
        replace (List.length (sent w) + 1 + 1)%nat
          with (List.length (sent w) + 2)%nat by lia.
        apply Hsrv. lia.
      * rewrite Hmax. lia.
    + cbn [requested asleep with_retry_delay sent].
      rewrite length_app. cbn [List.length]. apply Hsrv. lia.
    + rewrite Hmax. lia.
    + cbn [requested asleep with_retry_delay retry_delay]. lia.
  - rewrite <- (Nat.add_0_r (List.length (sent w))). apply Hsrv. lia.
  - rewrite Hmax. lia.
  - exact Hd.
Qed.

Lemma network_errors_back_off_twice_fresh :
  let url := "https://api.github.com/user/repos" in
  let req := request Scenario.fetcher url None in
  let r := make_request Scenario.fetcher Scenario.offline url None (fresh 0) in
  fst r = Return None
  /\ slept (snd r) = [2; 4]%Q
  /\ sent (snd r) = [req; req; req]
  /\ retry_delay (snd r) = 8.
Proof.
  apply (network_errors_back_off_twice Scenario.fetcher Scenario.offline
           "https://api.github.com/user/repos" None (fresh 0)).
  - reflexivity.
  - simpl. lia.
  - intros i Hi. reflexivity.
Defined.

(** ** Proactive throttling *)

Lemma int_of_str_nonempty (s : string) (n : Z) :
  int_of_str s = Return n -> truthy_str s = true.
Proof.
  destruct s as [|c s]; intros H.
  - vm_compute in H. discriminate H.
  - reflexivity.
Qed.


(** An error response is falsy, and [check_rate_limit] returns at once. *)
Lemma check_rate_limit_error (r : Response) (w : World) :
  ok r = false -> check_rate_limit (Some r) w = (Return tt, w).
Proof.
  intros Hok. unfold check_rate_limit. rewrite Hok. reflexivity.
Qed.

(** C5, at a refused request.  With the quota used up the API answers 403
    and announces zero remaining calls and the time of the reset.  Such a
    response should make [make_request] sleep until five seconds past the
    reset before it returns; the call returns it at once and nothing is
    slept.  [check_rate_limit] starts with [if not response: return], and a
    [requests.Response] is falsy when its status is 4xx or 5xx, so that the
    guard written for a missing response lets every error response pass.
    The same headers on a 200 do make the call sleep, for the 100 seconds
    to the reset and 5 more. *)
Theorem error_response_is_not_throttled :
  let url := "https://api.github.com/user/repos" in
  let now := fresh 1699999900 in
  let refused := make_request Scenario.fetcher
                   (fun _ _ => Resp Scenario.quota_exhausted) url None now in
  let accepted := make_request Scenario.fetcher
                    (fun _ _ => Resp Scenario.quota_nearly_exhausted)
                    url None now in
  status_code Scenario.quota_exhausted = 403
  /\ headers_get (headers Scenario.quota_exhausted) "X-RateLimit-Remaining"
     = Some "0"
  /\ headers_get (headers Scenario.quota_exhausted) "X-RateLimit-Reset"
     = Some "1700000000"
  /\ fst refused = Return (Some Scenario.quota_exhausted)
  /\ slept (snd refused) = []
  /\ clock (snd refused) = clock now
  /\ fst accepted = Return (Some Scenario.quota_nearly_exhausted)
  /\ slept (snd accepted) = [105]%Q.
Proof.
  vm_compute. repeat split.
Qed.

(** * Runs against the same responses *)

Import Compare.

Section Agreement.

Variable self : GitHubTrafficFetcher.
Variables server1 server2 : nat -> Request -> Event.

Lemma alike_same_sent (w1 w2 w1' w2' : World) :
  alike server1 server2 w1 w2 ->
  sent w1' = sent w1 -> sent w2' = sent w2 ->
  0 <= retry_delay w1' -> 0 <= retry_delay w2' ->
  alike server1 server2 w1' w2'.
Proof.
  intros (Hs & _ & _) H1 H2 Hd1 Hd2.
  split; [|split; assumption].
  intros i req. rewrite H1, H2. apply Hs.
Qed.

Lemma agree_quiet {A : Type} (m1 m2 : M A) :
  (forall w1 w2, alike server1 server2 w1 w2 ->
     fst (m1 w1) = fst (m2 w2)
     /\ sent (snd (m1 w1)) = sent w1 /\ sent (snd (m2 w2)) = sent w2
     /\ 0 <= retry_delay (snd (m1 w1)) /\ 0 <= retry_delay (snd (m2 w2))) ->
  agree server1 server2 m1 m2.
Proof.
  intros H w1 w2 Hal.
  destruct (H w1 w2 Hal) as (Hf & H1 & H2 & Hd1 & Hd2).
  split; [exact Hf|]. split.
  - exists []. rewrite !app_nil_r. split; assumption.
  - apply (alike_same_sent w1 w2); assumption.
Qed.

Lemma agree_ret {A : Type} (a : A) : agree server1 server2 (ret a) (ret a).
Proof.
  apply agree_quiet. intros w1 w2 (_ & Hd1 & Hd2). cbn. auto.
Qed.

Lemma agree_lift {A : Type} (r : result A) :
  agree server1 server2 (lift r) (lift r).
Proof.
  apply agree_quiet. intros w1 w2 (_ & Hd1 & Hd2). cbn. auto.
Qed.

Lemma agree_raise {A : Type} (e : exn) :
  agree server1 server2 (@raise A e) (raise e).
Proof.
  apply agree_quiet. intros w1 w2 (_ & Hd1 & Hd2). cbn. auto.
Qed.

Lemma agree_stop {A : Type} (c : cut) :
  agree server1 server2 (@stop A c) (stop c).
Proof.
  apply agree_quiet. intros w1 w2 (_ & Hd1 & Hd2). cbn. auto.
Qed.

Lemma agree_bind {A B : Type} (m1 m2 : M A) (k1 k2 : A -> M B) :
  agree server1 server2 m1 m2 ->
  (forall a : A, agree server1 server2 (k1 a) (k2 a)) ->
  agree server1 server2 (bind m1 k1) (bind m2 k2).
Proof.
  intros Hm Hk w1 w2 Hal.
  destruct (Hm w1 w2 Hal) as (Hf & (l & Hs1 & Hs2) & Hal').
  unfold bind.
  destruct (m1 w1) as [o1 v1], (m2 w2) as [o2 v2].
  cbn [fst snd] in Hf, Hs1, Hs2, Hal'. subst o2.
  destruct o1 as [a | e | c].
  - destruct (Hk a v1 v2 Hal') as (Hf' & (l' & Hs1' & Hs2') & Hal'').
    split; [exact Hf'|]. split; [|exact Hal''].
    exists (l ++ l'). rewrite Hs1', Hs2', Hs1, Hs2, !app_assoc.
    split; reflexivity.
  - cbn [fst snd]. split; [reflexivity|]. split; [|exact Hal'].
    exists l. split; assumption.
  - cbn [fst snd]. split; [reflexivity|]. split; [|exact Hal'].
    exists l. split; assumption.
Qed.

Lemma agree_sleep (d : Q) : agree server1 server2 (sleep d) (sleep d).
Proof.
  apply agree_quiet. intros w1 w2 (_ & Hd1 & Hd2).
  unfold sleep. destruct (Qle_bool 0 d); cbn; auto.
Qed.

Lemma agree_set_retry_delay (d : Z) :
  0 <= d -> agree server1 server2 (set_retry_delay d) (set_retry_delay d).
Proof.
  intros Hd. apply agree_quiet. intros w1 w2 _. cbn. auto.
Qed.

(** The two runs may back off for different lengths of time; both go on. *)
Lemma agree_back_off : agree server1 server2 back_off back_off.
Proof.
  apply agree_quiet. intros w1 w2 (_ & Hd1 & Hd2).
  rewrite !back_off_nonneg by assumption. cbn.
  repeat split; try reflexivity; lia.
Qed.

Lemma agree_session_get (url : string)
    (params : option (list (string * json))) :
  agree server1 server2 (session_get self server1 url params)
        (session_get self server2 url params).
Proof.
  intros w1 w2 (Hs & Hd1 & Hd2). unfold session_get. cbn [fst snd].
  split.
  - f_equal. specialize (Hs 0%nat (request self url params)).
    rewrite !Nat.add_0_r in Hs. exact Hs.
  - split.
    + exists [request self url params]. split; reflexivity.
    + split; [|split; assumption].
      intros i req. cbn [requested sent]. rewrite !length_app.
      cbn [List.length]. rewrite <- !Nat.add_assoc. apply Hs.
Qed.

(** Whether [check_rate_limit] raises is decided by the headers alone: the
    wait it computes from the clock is never negative. *)
Lemma agree_check_rate_limit (response : option Response) :
  agree server1 server2 (check_rate_limit response) (check_rate_limit response).
Proof.
  destruct response as [r|]; [|apply agree_ret].
  unfold check_rate_limit.
  destruct (negb (ok r)); [apply agree_ret|].
  apply agree_bind.
  - destruct (headers_get (headers r) "X-RateLimit-Remaining") as [s|];
      [|apply agree_ret].
    destruct (truthy_str s); [|apply agree_ret].
    apply agree_bind; [apply agree_lift|]. intros n. apply agree_ret.
  - intros [|]; [|apply agree_ret].
    destruct (headers_get (headers r) "X-RateLimit-Reset") as [t|];
      [|apply agree_sleep].
    destruct (truthy_str t); [|apply agree_sleep].
    apply agree_quiet. intros w1 w2 (_ & Hd1 & Hd2).
    unfold bind, lift.
    destruct (int_of_str t) as [reset | e | c]; cbn [fst snd]; auto.
    unfold time. rewrite !sleep_nonneg by apply throttle_wait_nonneg.
    cbn. auto.
Qed.

Lemma agree_retry_after_of (r : Response) :
  agree server1 server2 (retry_after_of r) (retry_after_of r).
Proof.
  unfold retry_after_of.
  destruct (headers_get (headers r) "Retry-After");
    [apply agree_lift | apply agree_ret].
Qed.

Lemma agree_attempts (url : string) (params : option (list (string * json)))
    (range : list nat) :
  agree server1 server2 (attempts self server1 url params range)
        (attempts self server2 url params range).
Proof.
  induction range as [|attempt range IH]; cbn [attempts].
  - apply agree_ret.
  - apply agree_bind; [apply agree_session_get|].
    intros [response | | ].
    + destruct (status_code response =? 429).
      * apply agree_bind; [apply agree_retry_after_of|]. intros retry_after.
        apply agree_bind; [apply agree_sleep|]. intros _. exact IH.
      * apply agree_bind; [apply agree_check_rate_limit|]. intros _.
        apply agree_bind; [apply agree_set_retry_delay; lia|]. intros _.
        apply agree_ret.
    + destruct (Z.of_nat attempt <? Z.of_nat (max_retries self) - 1).
      * apply agree_bind; [apply agree_back_off|]. intros _. exact IH.
      * apply agree_ret.
    + apply agree_ret.
Qed.

Lemma agree_make_request (url : string)
    (params : option (list (string * json))) :
  agree server1 server2 (make_request self server1 url params)
        (make_request self server2 url params).
Proof.
  apply agree_attempts.
Qed.

Lemma agree_attr_status_code (response : option Response) :
  agree server1 server2 (attr_status_code response) (attr_status_code response).
Proof.
  destruct response; [apply agree_ret | apply agree_raise].
Qed.

Lemma agree_call_json (response : option Response) :
  agree server1 server2 (call_json response) (call_json response).
Proof.
  destruct response as [r|]; [|apply agree_raise].
  cbn. destruct (body r); [apply agree_ret | apply agree_raise].
Qed.

Lemma agree_is_200 (response : option Response) :
  agree server1 server2 (if truthy_response response
         then sc <- attr_status_code response ;; ret (sc =? 200)
         else ret false)
        (if truthy_response response
         then sc <- attr_status_code response ;; ret (sc =? 200)
         else ret false).
Proof.
  destruct (truthy_response response); [|apply agree_ret].
  apply agree_bind; [apply agree_attr_status_code|]. intros sc.
  apply agree_ret.
Qed.

Lemma agree_get_repo_views (repo_name : string) :
  agree server1 server2 (get_repo_views self server1 repo_name)
        (get_repo_views self server2 repo_name).
Proof.
  unfold get_repo_views.
  apply agree_bind; [apply agree_make_request|]. intros response.
  apply agree_bind; [apply agree_is_200|]. intros [|].
  - apply agree_call_json.
  - apply agree_bind; [|intros _; apply agree_ret].
    destruct (truthy_response response); [|apply agree_ret].
    apply agree_bind; [apply agree_attr_status_code|]. intros _.
    apply agree_ret.
Qed.

Lemma agree_get_or_report (endpoint : string) :
  agree server1 server2 (get_or_report self server1 endpoint)
        (get_or_report self server2 endpoint).
Proof.
  unfold get_or_report.
  apply agree_bind; [apply agree_make_request|]. intros response.
  apply agree_bind; [apply agree_is_200|]. intros [|].
  - apply agree_call_json.
  - apply agree_bind; [apply agree_attr_status_code|]. intros _.
    apply agree_ret.
Qed.

Lemma agree_get_repo_traffic_data (repo_name : string) :
  agree server1 server2 (get_repo_traffic_data self server1 repo_name)
        (get_repo_traffic_data self server2 repo_name).
Proof.
  unfold get_repo_traffic_data, get_repo_clones, get_repo_referrers,
    get_popular_paths.
  apply agree_bind; [apply agree_get_repo_views|]. intros views.
  apply agree_bind; [apply agree_sleep|]. intros _.
  apply agree_bind; [apply agree_get_or_report|]. intros clones.
  apply agree_bind; [apply agree_sleep|]. intros _.
  apply agree_bind; [apply agree_get_or_report|]. intros referrers.
  apply agree_bind; [apply agree_sleep|]. intros _.
  apply agree_bind; [apply agree_get_or_report|]. intros popular_paths.
  apply agree_ret.
Qed.

End Agreement.

(** C9.  What [get_repo_traffic_data] returns (the record, or the exception
    it ends with) depends only on the responses it is served: started in any
    two states of the transport, whatever their backoff delay, clock and
    logs, against servers that answer alike from there on, the two runs end
    with the same outcome. *)
Theorem collect_depends_only_on_the_responses
    (self : GitHubTrafficFetcher) (server1 server2 : nat -> Request -> Event)
    (repo_name : string) (w1 w2 : World) :
  (forall (i : nat) (req : Request),
     server1 (List.length (sent w1) + i)%nat req
     = server2 (List.length (sent w2) + i)%nat req) ->
  0 <= retry_delay w1 ->
  0 <= retry_delay w2 ->
  fst (get_repo_traffic_data self server1 repo_name w1)
  = fst (get_repo_traffic_data self server2 repo_name w2).
Proof.
  intros Hsame Hd1 Hd2.
  apply (agree_get_repo_traffic_data self server1 server2 repo_name w1 w2).
  split; [exact Hsame | split; assumption].
Qed.

(** Collecting ["b"] a second time, in the state the first run left. *)
Lemma collect_twice_in_a_row :
  let first := get_repo_traffic_data Scenario.fetcher Scenario.end_to_end
                 "b" (fresh 0) in
  fst first
  = fst (get_repo_traffic_data Scenario.fetcher Scenario.end_to_end
           "b" (snd first)).
Proof.
  apply (collect_depends_only_on_the_responses Scenario.fetcher
           Scenario.end_to_end Scenario.end_to_end "b").
  - intros i req. reflexivity.
  - simpl. lia.
  - vm_compute. intros H. discriminate H.
Defined.

(** * The backoff delay between calls *)

Lemma only_appends_quiet {A : Type} (m : M A) :
  (forall w, slept (snd (m w)) = slept w) -> only_appends m.
Proof.
  intros H w. exists []. rewrite app_nil_r. apply H.
Qed.

Lemma only_appends_bind {A B : Type} (m : M A) (k : A -> M B) :
  only_appends m -> (forall a, only_appends (k a)) ->
  only_appends (bind m k).
Proof.
  intros Hm Hk w. destruct (Hm w) as (l & Hl). unfold bind.
  destruct (m w) as [[a | e | c] w']; cbn [snd] in *.
  - destruct (Hk a w') as (l' & Hl'). exists (l ++ l').
    rewrite Hl', Hl, app_assoc. reflexivity.
  - exists l. exact Hl.
  - exists l. exact Hl.
Qed.

Lemma only_appends_sleep (d : Q) : only_appends (sleep d).
Proof.
  intros w. unfold sleep. destruct (Qle_bool 0 d); cbn.
  - exists [d]. reflexivity.
  - exists []. rewrite app_nil_r. reflexivity.
Qed.

Lemma only_appends_check_rate_limit (response : option Response) :
  only_appends (check_rate_limit response).
Proof.
  destruct response as [r|]; [|apply only_appends_quiet; reflexivity].
  unfold check_rate_limit.
  destruct (negb (ok r)); [apply only_appends_quiet; reflexivity|].
  apply only_appends_bind.
  - destruct (headers_get (headers r) "X-RateLimit-Remaining") as [s|];
      [|apply only_appends_quiet; reflexivity].
    destruct (truthy_str s); [|apply only_appends_quiet; reflexivity].
    apply only_appends_bind; [apply only_appends_quiet; reflexivity|].
    intros n. apply only_appends_quiet. reflexivity.
  - intros [|]; [|apply only_appends_quiet; reflexivity].
    destruct (headers_get (headers r) "X-RateLimit-Reset") as [t|];
      [|apply only_appends_sleep].
    destruct (truthy_str t); [|apply only_appends_sleep].
    apply only_appends_bind; [apply only_appends_quiet; reflexivity|].
    intros reset. apply only_appends_bind;
      [apply only_appends_quiet; reflexivity|].
    intros now. apply only_appends_sleep.
Qed.

Section Delay.

Variable self : GitHubTrafficFetcher.
Variable server : nat -> Request -> Event.

Lemma only_appends_attempts (url : string)
    (params : option (list (string * json))) (range : list nat) :
  only_appends (attempts self server url params range).
Proof.
  induction range as [|attempt range IH]; cbn [attempts].
  - apply only_appends_quiet. reflexivity.
  - apply only_appends_bind; [apply only_appends_quiet; reflexivity|].
    intros [response | | ].
    + destruct (status_code response =? 429).
      * apply only_appends_bind.
        -- unfold retry_after_of.
           destruct (headers_get (headers response) "Retry-After");
             apply only_appends_quiet; reflexivity.
        -- intros retry_after.
           apply only_appends_bind; [apply only_appends_sleep|].
           intros _. exact IH.
      * apply only_appends_bind; [apply only_appends_check_rate_limit|].
        intros _.
        apply only_appends_bind; [apply only_appends_quiet; reflexivity|].
        intros _. apply only_appends_quiet. reflexivity.
    + destruct (Z.of_nat attempt <? Z.of_nat (max_retries self) - 1).
      * apply only_appends_bind; [|intros _; exact IH].
        unfold back_off.
        apply only_appends_bind; [apply only_appends_quiet; reflexivity|].
        intros d.
        apply only_appends_bind; [apply only_appends_sleep|].
        intros _. apply only_appends_quiet. reflexivity.
      * apply only_appends_quiet. reflexivity.
    + apply only_appends_quiet. reflexivity.
Qed.

(** Whenever the loop hands back a response, the delay is 2. *)
Lemma attempts_response_resets (url : string)
    (params : option (list (string * json))) (range : list nat) :
  forall (w w' : World) (r : Response),
    attempts self server url params range w = (Return (Some r), w') ->
    retry_delay w' = 2.
Proof.
  induction range as [|attempt range IH]; intros w w' r; cbn [attempts].
  - intros H. discriminate H.
  - unfold bind at 1. unfold session_get.
    destruct (server (List.length (sent w)) (request self url params))
      as [response | | ].
    + destruct (status_code response =? 429).
      * unfold bind at 1.
        destruct (retry_after_of response _) as [[retry_after | e | c] w1];
          try (intros H; discriminate H).
        unfold bind at 1.
        destruct (sleep _ w1) as [[[] | e | c] w2];
          try (intros H; discriminate H).
        apply IH.
      * unfold bind at 1.
        destruct (check_rate_limit _ _) as [[[] | e | c] w1];
          try (intros H; discriminate H).
        cbn. intros H. injection H as _ Hw. subst w'. reflexivity.
    + destruct (Z.of_nat attempt <? Z.of_nat (max_retries self) - 1).
      * unfold bind at 1.
        destruct (back_off _) as [[[] | e | c] w1];
          try (intros H; discriminate H).
        apply IH.
      * intros H. discriminate H.
    + intros H. discriminate H.
Qed.

End Delay.

(** C8, as stated, fails for a call that ends in failure: after three
    network failures the first call returns [None] and leaves the delay at 8;
    the next call, which meets one more failure before its answer, backs off
    for 8 seconds, not 2. *)
Lemma failed_call_leaves_the_delay_inflated :
  let url := "https://api.github.com/user/repos" in
  let first := make_request Scenario.fetcher Scenario.burst_then_hiccup
                 url None (fresh 0) in
  let second := make_request Scenario.fetcher Scenario.burst_then_hiccup
                  url None (snd first) in
  fst first = Return None
  /\ retry_delay (snd first) = 8
  /\ fst second = Return (Some Scenario.success)
  /\ slept (snd second) = slept (snd first) ++ [8%Q].
Proof.
  vm_compute. repeat split.
Qed.

(** C8, amended.  Every call of [make_request] that returns a response
    leaves the backoff delay at 2 seconds, however inflated it was; so the
    call after it, if its first attempt meets a network failure and another
    attempt is allowed, backs off for 2 seconds first.  (Nothing is said of
    the call after one that returned [None].) *)
Theorem delay_is_reset_by_every_response
    (self : GitHubTrafficFetcher) (server : nat -> Request -> Event)
    (url : string) (params : option (list (string * json)))
    (w w1 : World) (r : Response) :
  make_request self server url params w = (Return (Some r), w1) ->
  retry_delay w1 = 2
  /\ forall (url2 : string) (params2 : option (list (string * json))),
       (1 < max_retries self)%nat ->
       server (List.length (sent w1)) (request self url2 params2)
       = NetworkError ->
       exists rest : list Q,
         slept (snd (make_request self server url2 params2 w1))
         = slept w1 ++ inject_Z 2 :: rest.
Proof.
  intros Hcall.
  assert (Hd : retry_delay w1 = 2).
  { apply (attempts_response_resets self server url params _ w w1 r Hcall). }
  split; [exact Hd|].
  intros url2 params2 Hmax Hev.
  unfold make_request.
  destruct (max_retries self) as [|k] eqn:Hk; [lia|]. cbn [seq].
  rewrite attempts_network_error_retry.
  - destruct (only_appends_attempts self server url2 params2 (seq 1 k)
                (with_retry_delay (retry_delay w1 * 2)
                   (asleep (inject_Z (retry_delay w1))
                      (requested (request self url2 params2) w1))))
      as (l & Hl).
    exists l. rewrite Hl. cbn [with_retry_delay asleep requested slept].
    rewrite Hd, <- app_assoc. reflexivity.
  - exact Hev.
  - rewrite Hk. lia.
  - lia.
Qed.

Lemma delay_is_reset_after_a_hiccup :
  let url := "https://api.github.com/user/repos" in
  let w := with_retry_delay 8 (fresh 0) in
  let server := Scenario.script [NetworkError] (Resp Scenario.success) in
  let w1 := snd (make_request Scenario.fetcher server url None w) in
  slept w1 = [8%Q]
  /\ retry_delay w1 = 2.
Proof.
  split; [reflexivity|].
  apply (delay_is_reset_by_every_response Scenario.fetcher
           (Scenario.script [NetworkError] (Resp Scenario.success))
           "https://api.github.com/user/repos" None
           (with_retry_delay 8 (fresh 0)) _ Scenario.success).
  reflexivity.
Defined.

(** * The paginator *)

Lemma silent_bind {A B : Type} (m : M A) (k : A -> M B) :
  silent m -> (forall a, silent (k a)) -> silent (bind m k).
Proof.
  intros Hm Hk w. specialize (Hm w). unfold bind.
  destruct (m w) as [[a | e | c] w']; cbn [snd] in *.
  - rewrite Hk. exact Hm.
  - exact Hm.
  - exact Hm.
Qed.

Lemma silent_sleep (d : Q) : silent (sleep d).
Proof.
  intros w. unfold sleep. destruct (Qle_bool 0 d); reflexivity.
Qed.

Lemma silent_pure {A : Type} (m : M A) :
  (forall w, snd (m w) = w) -> silent m.
Proof.
  intros H w. rewrite H. reflexivity.
Qed.

Lemma silent_check_rate_limit (response : option Response) :
  silent (check_rate_limit response).
Proof.
  destruct response as [r|]; [|apply silent_pure; reflexivity].
  unfold check_rate_limit.
  destruct (negb (ok r)); [apply silent_pure; reflexivity|].
  apply silent_bind.
  - destruct (headers_get (headers r) "X-RateLimit-Remaining") as [s|];
      [|apply silent_pure; reflexivity].
    destruct (truthy_str s); [|apply silent_pure; reflexivity].
    apply silent_bind; [apply silent_pure; reflexivity|].
    intros n. apply silent_pure. reflexivity.
  - intros [|]; [|apply silent_pure; reflexivity].
    destruct (headers_get (headers r) "X-RateLimit-Reset") as [t|];
      [|apply silent_sleep].
    destruct (truthy_str t); [|apply silent_sleep].
    apply silent_bind; [apply silent_pure; reflexivity|].
    intros reset. apply silent_bind; [apply silent_pure; reflexivity|].
    intros now. apply silent_sleep.
Qed.

Lemma silent_back_off : silent back_off.
Proof.
  unfold back_off.
  apply silent_bind; [apply silent_pure; reflexivity|]. intros d.
  apply silent_bind; [apply silent_sleep|]. intros _.
  intros w. reflexivity.
Qed.

Lemma silent_retry_after_of (r : Response) : silent (retry_after_of r).
Proof.
  unfold retry_after_of.
  destruct (headers_get (headers r) "Retry-After");
    apply silent_pure; reflexivity.
Qed.

Lemma sends_only_silent {A : Type} (req : Request) (m : M A) :
  silent m -> sends_only req m.
Proof.
  intros H w. exists 0%nat. cbn [repeat]. rewrite app_nil_r. apply H.
Qed.

Lemma sends_only_bind {A B : Type} (req : Request) (m : M A)
    (k : A -> M B) :
  sends_only req m -> (forall a, sends_only req (k a)) ->
  sends_only req (bind m k).
Proof.
  intros Hm Hk w. destruct (Hm w) as (c & Hc). unfold bind.
  destruct (m w) as [[a | e | x] w']; cbn [snd] in *.
  - destruct (Hk a w') as (c' & Hc'). exists (c + c')%nat.
    rewrite Hc', Hc, repeat_app, app_assoc. reflexivity.
  - exists c. exact Hc.
  - exists c. exact Hc.
Qed.

Section Paginator.

Variable self : GitHubTrafficFetcher.
Variable server : nat -> Request -> Event.

Lemma sends_only_attempts (url : string)
    (params : option (list (string * json))) (range : list nat) :
  sends_only (request self url params)
    (attempts self server url params range).
Proof.
  induction range as [|attempt range IH]; cbn [attempts].
  - apply sends_only_silent, silent_pure. reflexivity.
  - apply sends_only_bind.
    + intros w. exists 1%nat. reflexivity.
    + intros [response | | ].
      * destruct (status_code response =? 429).
        -- apply sends_only_bind;
             [apply sends_only_silent, silent_retry_after_of|].
           intros retry_after.
           apply sends_only_bind; [apply sends_only_silent, silent_sleep|].
           intros _. exact IH.
        -- apply sends_only_silent.
           apply silent_bind; [apply silent_check_rate_limit|]. intros _.
           intros w. reflexivity.
      * destruct (Z.of_nat attempt <? Z.of_nat (max_retries self) - 1).
        -- apply sends_only_bind;
             [apply sends_only_silent, silent_back_off|].
           intros _. exact IH.
        -- apply sends_only_silent, silent_pure. reflexivity.
      * apply sends_only_silent, silent_pure. reflexivity.
Qed.

(** A call of the transport in any world with a sound delay does what
    [Spec.transport] computes for the place of its first request. *)
Lemma make_request_as_transport (url : string)
    (params : option (list (string * json))) (w : World)
    (res : result (option Response)) (c : nat) :
  0 <= retry_delay w ->
  Spec.transport self server (List.length (sent w)) url params = (res, c) ->
  fst (make_request self server url params w) = res
  /\ sent (snd (make_request self server url params w))
     = sent w ++ repeat (request self url params) c
  /\ 0 <= retry_delay (snd (make_request self server url params w)).
Proof.
  intros Hd Ht. unfold Spec.transport in Ht.
  injection Ht as Hres Hc.
  destruct (agree_make_request self server
              (fun i => server (List.length (sent w) + i)%nat)
              url params w (fresh 0)) as (Hf & (l & Hl1 & Hl2) & Hal).
  { split; [|split; [exact Hd | cbn; lia]].
    intros i req. reflexivity. }
  split; [rewrite Hf; exact Hres|].
  split; [|apply Hal].
  destruct (sends_only_attempts url params (seq 0 (max_retries self)) w)
    as (c' & Hc').
  fold (make_request self server url params) in Hc'.
  rewrite Hc'. f_equal. f_equal.
  rewrite Hl1 in Hc'. apply app_inv_head in Hc'.
  rewrite Hl2 in Hc. cbn [fresh sent app] in Hc.
  rewrite Hc' in Hc. rewrite repeat_length in Hc. exact Hc.
Qed.

End Paginator.

Section Pages.

Variable self : GitHubTrafficFetcher.
Variable server : nat -> Request -> Event.

(** A round that stops the loop. *)
Lemma pages_stop (fuel : nat) (params : list (string * json))
    (repos : list json) (page : Z) (w : World) (res : option Response)
    (c : nat) :
  Spec.paged params ->
  0 <= retry_delay w ->
  Spec.transport self server (List.length (sent w)) (repos_url self)
    (Requests.params (Spec.page_request self page)) = (Return res, c) ->
  Spec.stops res ->
  let r := pages self server (S fuel) params repos page w in
  fst r = Return repos
  /\ sent (snd r) = sent w ++ repeat (Spec.page_request self page) c.
Proof.
  intros Hp Hd Ht Hstop r. subst r.
  cbn [pages]. rewrite Hp. unfold bind.
  destruct (make_request_as_transport self server _ _ w _ c Hd Ht)
    as (Hf & Hs & _).
  cbn [Spec.page_request request Requests.params] in Hf, Hs.
  destruct (make_request self server (repos_url self) _ w) as [o w'].
  cbn [fst snd] in Hf, Hs. subst o.
  inversion Hstop as [ | r Hne | r j Heq Hbody Hfalsy]; subst res.
  - split; [reflexivity | exact Hs].
  - apply Z.eqb_neq in Hne. rewrite Hne. cbn [negb].
    split; [reflexivity | exact Hs].
  - apply Z.eqb_eq in Heq. rewrite Heq. cbn [negb].
    unfold call_json. rewrite Hbody. cbn [ret].
    rewrite Hfalsy. cbn [negb fst snd].
    split; [reflexivity | exact Hs].
Qed.

(** A round that gets a page and goes on. *)
Lemma pages_step (fuel : nat) (params : list (string * json))
    (repos : list json) (page : Z) (w : World) (r : Response)
    (items : list json) (k : nat) :
  Spec.paged params ->
  0 <= retry_delay w ->
  Spec.transport self server (List.length (sent w)) (repos_url self)
    (Requests.params (Spec.page_request self page))
  = (Return (Some r), k) ->
  status_code r = 200 ->
  body r = Some (JList items) ->
  items <> [] ->
  exists w' : World,
    pages self server (S fuel) params repos page w
    = pages self server fuel
        [("per_page", JNum 100); ("type", JStr "owner"); ("page", JNum page)]
        (repos ++ items) (page + 1) w'
    /\ sent w' = sent w ++ repeat (Spec.page_request self page) k
    /\ 0 <= retry_delay w'.
Proof.
  intros Hp Hd Ht Hs Hbody Hne.
  destruct (make_request_as_transport self server _ _ w _ k Hd Ht)
    as (Hf & Hsent & Hd').
  cbn [Spec.page_request request Requests.params] in Hf, Hsent, Hd'.
  cbn [pages]. rewrite Hp. unfold bind at 1.
  destruct (make_request self server (repos_url self) _ w) as [o w1].
  cbn [fst snd] in Hf, Hsent, Hd'. subst o.
  exists (asleep (1 # 2) w1).
  split; [|split; [exact Hsent | exact Hd']].
  apply Z.eqb_eq in Hs. rewrite Hs. cbn [negb].
  unfold bind at 1. cbn [call_json]. rewrite Hbody. cbn [ret].
  destruct items as [|item items]; [contradiction|].
  reflexivity.
Qed.

Lemma pages_serves (pgs : list (list json)) :
  forall (calls : list nat) (fuel : nat) (params : list (string * json))
         (repos : list json) (page : Z) (w : World) (c : nat),
    Spec.paged params ->
    0 <= retry_delay w ->
    Spec.serves self server (List.length (sent w)) page pgs calls c ->
    (List.length pgs < fuel)%nat ->
    let r := pages self server fuel params repos page w in
    fst r = Return (repos ++ List.concat pgs)
    /\ sent (snd r)
       = sent w
         ++ Spec.page_requests self page calls
         ++ repeat
              (Spec.page_request self (page + Z.of_nat (List.length pgs))) c.
Proof.
  induction pgs as [|items rest IH];
    intros calls fuel params repos page w c Hp Hd Hserves Hfuel.
  - inversion Hserves as [n p res c' Ht Hstop | ]; subst.
    destruct fuel as [|fuel]; [cbn in Hfuel; lia|].
    cbn [List.length List.concat Spec.page_requests app].
    rewrite app_nil_r, Z.add_0_r.
    apply (pages_stop fuel params repos page w res c Hp Hd Ht Hstop).
  - inversion Hserves
      as [ | n p r items' k rest' calls' c' Ht Hs Hbody Hne Hrest]; subst.
    destruct fuel as [|fuel]; [cbn in Hfuel; lia|].
    destruct (pages_step fuel params repos page w r items k
                Hp Hd Ht Hs Hbody Hne) as (w' & Heq & Hsent & Hd').
    cbv zeta. rewrite Heq.
    assert (Hp' : Spec.paged [("per_page", JNum 100);
                              ("type", JStr "owner");
                              ("page", JNum page)])
      by (intros p; reflexivity).
    assert (Hlen : List.length (sent w') = (List.length (sent w) + k)%nat)
      by (rewrite Hsent, length_app, repeat_length; reflexivity).
    rewrite <- Hlen in Hrest.
    destruct (IH calls' fuel _ (repos ++ items) (page + 1) w' c Hp' Hd'
                Hrest ltac:(cbn in Hfuel; lia)) as (Hf & Hq).
    split.
    + rewrite Hf. cbn [List.concat]. rewrite app_assoc. reflexivity.
    + rewrite Hq, Hsent. cbn [List.length Spec.page_requests].
      rewrite <- !app_assoc. do 5 f_equal. lia.
Qed.

End Pages.

(** C6.  [get_user_repos] asks for page 1, then 2, and so on, always with
    [per_page = 100]; it goes on as long as the transport returns pages with
    items, and stops at the first page for which the transport returns
    [None], a status other than 200, or an empty page; it returns the items
    of the pages before that, in the order they were served, and sends no
    request after the ones for the page that stopped it. *)
Theorem get_user_repos_concatenates_the_pages
    (self : GitHubTrafficFetcher) (server : nat -> Request -> Event)
    (w : World) (pgs : list (list json)) (calls : list nat) (c fuel : nat) :
  0 <= retry_delay w ->
  Spec.serves self server (List.length (sent w)) 1 pgs calls c ->
  (List.length pgs < fuel)%nat ->
  let r := get_user_repos self server fuel w in
  fst r = Return (List.concat pgs)
  /\ sent (snd r)
     = sent w
       ++ Spec.page_requests self 1 calls
       ++ repeat
            (Spec.page_request self (1 + Z.of_nat (List.length pgs))) c.
Proof.
  intros Hd Hserves Hfuel.
  unfold get_user_repos.
  apply (pages_serves self server pgs calls fuel _ [] 1 w c);
    try assumption.
  intros page. reflexivity.
Qed.

Lemma three_pages_then_an_empty_one :
  let r := get_user_repos Scenario.fetcher Scenario.three_pages 10
             (fresh 0) in
  fst r = Return (Scenario.page1 ++ Scenario.page2 ++ Scenario.page3)
  /\ sent (snd r) = map (Spec.page_request Scenario.fetcher) [1; 2; 3; 4].
Proof.
  apply (get_user_repos_concatenates_the_pages Scenario.fetcher
           Scenario.three_pages (fresh 0)
           [Scenario.page1; Scenario.page2; Scenario.page3]
           [1; 1; 1]%nat 1 10).
  - simpl. lia.
  - apply Spec.serves_page with (r := Scenario.json_page Scenario.page1);
      [reflexivity | reflexivity | reflexivity | discriminate | ].
    apply Spec.serves_page with (r := Scenario.json_page Scenario.page2);
      [reflexivity | reflexivity | reflexivity | discriminate | ].
    apply Spec.serves_page with (r := Scenario.json_page Scenario.page3);
      [reflexivity | reflexivity | reflexivity | discriminate | ].
    apply Spec.serves_last with (res := Some (Scenario.json_page [])).
    + reflexivity.
    + apply Spec.stops_empty with (j := JList []); reflexivity.
  - simpl. lia.
Defined.

(** * The collector *)

(** C2.  A transport failure on the clones endpoint should leave [clones]
    absent and let the collection go on.  Here [get_repo_clones] formats
    [response.status_code] for its message although [response] is [None]:
    the [AttributeError] ends [get_repo_traffic_data] after the three
    attempts on the clones endpoint, and neither referrers nor popular paths
    are fetched.  [get_repo_views] guards its message with [elif response:]
    and does not have the fault: with the views endpoint down instead, the
    record comes back with [views] absent. *)
Theorem clones_failure_aborts_the_collection :
  let r := get_repo_traffic_data Scenario.fetcher Scenario.clones_down "a"
             (fresh 0) in
  fst r = Raise AttributeError
  /\ map url (sent (snd r))
     = [traffic_url Scenario.fetcher "a" "views";
        traffic_url Scenario.fetcher "a" "clones";
        traffic_url Scenario.fetcher "a" "clones";
        traffic_url Scenario.fetcher "a" "clones"]
  /\ fst (get_repo_traffic_data Scenario.fetcher Scenario.views_down "a"
            (fresh 0))
     = Return [("views", JNull);
               ("clones", Scenario.counts 10 4);
               ("referrers", Scenario.counts 10 4);
               ("popular_paths", Scenario.counts 10 4)].
Proof.
  vm_compute. repeat split.
Qed.

(** * The summary *)

Lemma method_get_field (d : list (string * json)) (field : string) :
  method_get (JDict d) field JNull = Return (Spec.field_of (JDict d) field).
Proof.
  cbn. destruct (dict_get d field); reflexivity.
Qed.

Lemma metric_ok_field (keys : list string) (d : list (string * json))
    (field : string) :
  Spec.metric_ok keys (dict_get d field) = true ->
  Spec.metric_ok keys (Some (Spec.field_of (JDict d) field)) = true.
Proof.
  cbn [Spec.field_of]. destruct (dict_get d field); intros H;
    [exact H | reflexivity].
Qed.

Lemma method_get_number (m : list (string * json)) (key : string) :
  Spec.number_or_missing m key = true ->
  method_get (JDict m) key (JNum 0)
  = Return (JNum (Spec.count_in (JDict m) key)).
Proof.
  unfold Spec.number_or_missing. cbn [method_get Spec.count_in].
  destruct (dict_get m key) as [[ | | n | | | ] | ]; intros H;
    try discriminate H; reflexivity.
Qed.

Lemma add_views_ok (v : json) (t : Totals) :
  Spec.metric_ok ["count"; "uniques"] (Some v) = true ->
  add_views v t
  = Return
      {| total_views := total_views t + Spec.count_in v "count";
         total_unique_views :=
           total_unique_views t + Spec.count_in v "uniques";
         total_clones := total_clones t |}.
Proof.
  destruct t as [tv tu tc]. cbn [total_views total_unique_views total_clones].
  destruct v as [ | b | n | s | l | m]; cbn [Spec.metric_ok forallb];
    intros H; try discriminate H.
  - cbn. rewrite !Z.add_0_r. reflexivity.
  - apply andb_prop in H. destruct H as (Hc & Hu).
    apply andb_prop in Hu. destruct Hu as (Hu & _).
    unfold add_views. destruct (truthy (JDict m)) eqn:T.
    + rewrite (method_get_number m "count" Hc).
      rewrite (method_get_number m "uniques" Hu). reflexivity.
    + destruct m as [|kv m]; [|discriminate T].
      cbn. rewrite !Z.add_0_r. reflexivity.
Qed.

Lemma add_clones_ok (v : json) (t : Totals) :
  Spec.metric_ok ["count"] (Some v) = true ->
  add_clones v t
  = Return
      {| total_views := total_views t;
         total_unique_views := total_unique_views t;
         total_clones := total_clones t + Spec.count_in v "count" |}.
Proof.
  destruct t as [tv tu tc]. cbn [total_views total_unique_views total_clones].
  destruct v as [ | b | n | s | l | m]; cbn [Spec.metric_ok forallb];
    intros H; try discriminate H.
  - cbn. rewrite !Z.add_0_r. reflexivity.
  - apply andb_prop in H. destruct H as (Hc & _).
    unfold add_clones. destruct (truthy (JDict m)) eqn:T.
    + rewrite (method_get_number m "count" Hc). reflexivity.
    + destruct m as [|kv m]; [|discriminate T].
      cbn. rewrite !Z.add_0_r. reflexivity.
Qed.

Lemma summary_totals (items : list (string * json)) :
  forall t : Totals,
    Spec.report_ok items = true ->
    summary items t
    = Return
        {| total_views :=
             total_views t + Spec.total items "views" "count";
           total_unique_views :=
             total_unique_views t + Spec.total items "views" "uniques";
           total_clones :=
             total_clones t + Spec.total items "clones" "count" |}.
Proof.
  induction items as [|[repo_name data] items IH]; intros t Hok.
  - cbn. rewrite !Z.add_0_r. destruct t; reflexivity.
  - cbn [Spec.report_ok forallb snd] in Hok.
    apply andb_prop in Hok. destruct Hok as (Hrec & Hrest).
    destruct data as [ | b | n | s | l | d]; try discriminate Hrec.
    cbn [Spec.record_ok] in Hrec.
    apply andb_prop in Hrec. destruct Hrec as (Hv & Hc).
    cbn [summary]. rewrite !method_get_field. cbn [rbind].
    rewrite (add_views_ok _ t (metric_ok_field _ d "views" Hv)).
    cbn [rbind].
    rewrite (add_clones_ok _ _ (metric_ok_field _ d "clones" Hc)).
    cbn [rbind total_views total_unique_views total_clones].
    rewrite (IH _ Hrest).
    cbn [total_views total_unique_views total_clones Spec.total fold_right
           snd].
    unfold Spec.reading. fold (Spec.total items "views" "count").
    fold (Spec.total items "views" "uniques").
    fold (Spec.total items "clones" "count").
    rewrite <- !Z.add_assoc. reflexivity.
Qed.

(** C7.  For every report whose records are dictionaries with [views] and
    [clones] absent or dictionaries of numbers, [print_summary] prints as
    total views, total unique visitors and total clones the sums of
    [views.count], [views.uniques] and [clones.count] over the records where
    that metric is present, an absent metric adding zero. *)
Theorem print_summary_sums_the_present_metrics
    (report : list (string * json)) :
  Spec.report_ok report = true ->
  print_summary report
  = Return
      {| total_views := Spec.total report "views" "count";
         total_unique_views := Spec.total report "views" "uniques";
         total_clones := Spec.total report "clones" "count" |}.
Proof.
  intros Hok. unfold print_summary.
  rewrite (summary_totals report _ Hok). reflexivity.
Qed.

(** The report of the end-to-end scenario: 10 views, all of ["a"], and
    2 + 5 clones. *)
Lemma end_to_end_totals :
  fst (get_all_traffic_data Scenario.fetcher Scenario.end_to_end 5 (fresh 0))
  = Return Scenario.end_to_end_report
  /\ print_summary Scenario.end_to_end_report
     = Return {| total_views := 10;
                 total_unique_views := 4;
                 total_clones := 7 |}.
Proof.
  split; [reflexivity|].
  apply (print_summary_sums_the_present_metrics Scenario.end_to_end_report).
  reflexivity.
Defined.

(** * The aggregator *)

Lemma dict_get_set_same {V : Type} (d : list (string * V)) (k : string)
    (v : V) :
  dict_get (dict_set d k v) k = Some v.
Proof.
  induction d as [|[k' v'] d IH]; cbn [dict_set dict_get].
  - rewrite String.eqb_refl. reflexivity.
  - destruct (String.eqb k k') eqn:E; cbn [dict_get]; rewrite E.
    + reflexivity.
    + exact IH.
Qed.

Lemma dict_get_set_other {V : Type} (d : list (string * V)) (k k' : string)
    (v : V) :
  k <> k' -> dict_get (dict_set d k v) k' = dict_get d k'.
Proof.
  intros Hne. induction d as [|[k0 v0] d IH]; cbn [dict_set dict_get].
  - destruct (String.eqb_spec k' k) as [E|_]; [|reflexivity].
    subst. contradiction.
  - destruct (String.eqb_spec k k0) as [E|E]; cbn [dict_get].
    + subst k0. destruct (String.eqb_spec k' k) as [E'|_]; [|reflexivity].
      subst. contradiction.
    + rewrite IH. reflexivity.
Qed.

Lemma bind_Return_inv {A B : Type} (m : M A) (k : A -> M B) (w w' : World)
    (b : B) :
  bind m k w = (Return b, w') ->
  exists (a : A) (w1 : World), m w = (Return a, w1) /\ k a w1 = (Return b, w').
Proof.
  unfold bind. destruct (m w) as [[a | e | c] w1]; intros H;
    try discriminate H.
  exists a, w1. split; [reflexivity | exact H].
Qed.

Lemma lift_Return_inv {A : Type} (r : result A) (w w' : World) (a : A) :
  lift r w = (Return a, w') -> r = Return a.
Proof.
  unfold lift. intros H. injection H as Hr _. exact Hr.
Qed.

Ltac bind_inv H a w Ha :=
  apply bind_Return_inv in H; destruct H as (a & w & Ha & H).

Section Aggregator.

Variable self : GitHubTrafficFetcher.
Variable server : nat -> Request -> Event.

(** The collector returns a dictionary with the four metrics, in order. *)
Lemma get_repo_traffic_data_keys (repo_name : string) (w w' : World)
    (traffic_data : list (string * json)) :
  get_repo_traffic_data self server repo_name w = (Return traffic_data, w') ->
  exists views clones referrers popular_paths : json,
    traffic_data = [("views", views); ("clones", clones);
                    ("referrers", referrers);
                    ("popular_paths", popular_paths)].
Proof.
  unfold get_repo_traffic_data. intros H.
  bind_inv H views w1 H1. bind_inv H u1 w2 H2.
  bind_inv H clones w3 H3. bind_inv H u2 w4 H4.
  bind_inv H referrers w5 H5. bind_inv H u3 w6 H6.
  bind_inv H popular_paths w7 H7.
  injection H as Htd _.
  exists views, clones, referrers, popular_paths.
  rewrite <- Htd. reflexivity.
Qed.

(** Writing a record with a sound [repository_info] under [key] keeps
    every repository that had its record. *)
Lemma has_record_set (all : list (string * json)) (key : string)
    (record info : list (string * json)) (repo : json) :
  dict_get record "repository_info" = Some (JDict info) ->
  map fst info
  = ["name"; "full_name"; "description"; "stars"; "forks"; "language";
     "created_at"; "updated_at"] ->
  dict_get info "name" = Some (JStr key) ->
  Spec.has_record all repo ->
  Spec.has_record (dict_set all key (JDict record)) repo.
Proof.
  intros Hinfo Hkeys Hname (name & record' & info' & Hn & Hr & Hi & Hk & Hm).
  destruct (String.eqb_spec key name) as [E|E].
  - subst name. exists key, record, info.
    rewrite dict_get_set_same. repeat split; assumption.
  - exists name, record', info'.
    rewrite (dict_get_set_other all key name _ E).
    repeat split; assumption.
Qed.

Lemma repositories_records (repos : list json) :
  forall (total_repos i : Z) (all report : list (string * json))
         (w w' : World),
    repositories self server total_repos i repos all w = (Return report, w') ->
    (forall repo, In repo repos -> Spec.has_record report repo)
    /\ (forall repo, Spec.has_record all repo -> Spec.has_record report repo).
Proof.
  induction repos as [|repo repos IH];
    intros total_repos i all report w w' H.
  - cbn in H. injection H as Hr _. subst report.
    split; [intros repo [] | auto].
  - cbn [repositories] in H.
    bind_inv H repo_name w1 H1. apply lift_Return_inv in H1.
    bind_inv H full_name w2 H2. bind_inv H description w3 H3.
    bind_inv H stars w4 H4. bind_inv H forks w5 H5.
    bind_inv H language w6 H6. bind_inv H created_at w7 H7.
    bind_inv H updated_at w8 H8. bind_inv H key w9 H9.
    assert (Hkey : repo_name = JStr key).
    { destruct repo_name; cbn in H9; try discriminate H9.
      injection H9 as Hs _. subst. reflexivity. }
    subst repo_name.
    bind_inv H traffic_data w10 H10.
    destruct (get_repo_traffic_data_keys key w9 w10 traffic_data H10)
      as (views & clones & referrers & popular_paths & Htd).
    subst traffic_data.
    rewrite dict_get_set_same in H.
    bind_inv H all' w11 H11. cbn in H11. injection H11 as Hall _.
    bind_inv H u w12 H12.
    destruct (IH _ _ _ _ _ _ H) as (Hin & Hkeep).
    assert (Hset : forall r, Spec.has_record all r -> Spec.has_record all' r).
    { intros r Hr. subst all'.
      eapply has_record_set; [reflexivity | reflexivity | reflexivity |].
      eapply has_record_set;
        [reflexivity | reflexivity | reflexivity | exact Hr]. }
    split.
    + intros r [Heq | Hr]; [|apply Hin; exact Hr].
      subst r. apply Hkeep. subst all'.
      eexists key, _, _. rewrite dict_get_set_same.
      split; [exact H1|]. split; [reflexivity|].
      split; [reflexivity|]. split; reflexivity.
    + intros r Hr. apply Hkeep, Hset, Hr.
Qed.

End Aggregator.

(** C10.  Whenever [get_all_traffic_data] returns a report, every
    repository the enumeration returned has a record in it under its name,
    and that record's [repository_info] is a dictionary with exactly the
    fields [name], [full_name], [description], [stars], [forks], [language],
    [created_at] and [updated_at], its [name] being the key of the record.
    This does not depend on what the four metric fetches returned. *)
Theorem every_repository_has_its_repository_info
    (self : GitHubTrafficFetcher) (server : nat -> Request -> Event)
    (fuel : nat) (w w1 w2 : World) (repos : list json)
    (report : list (string * json)) :
  get_user_repos self server fuel w = (Return repos, w1) ->
  get_all_traffic_data self server fuel w = (Return report, w2) ->
  forall repo : json, In repo repos -> Spec.has_record report repo.
Proof.
  intros Hrepos Hrun repo Hin.
  unfold get_all_traffic_data in Hrun.
  bind_inv Hrun repos' w1' Hrepos'.
  rewrite Hrepos in Hrepos'. injection Hrepos' as Hr Hw. subst repos' w1'.
  destruct repos as [|first repos]; [destruct Hin|].
  cbn [truthy negb] in Hrun.
  apply (proj1 (repositories_records self server _ _ _ _ _ _ _ Hrun)).
  exact Hin.
Qed.

(** Both repositories keep their [repository_info] when every traffic
    endpoint is refused and all four metrics of both records are absent. *)
Lemma refused_traffic_keeps_repository_info :
  fst (get_all_traffic_data Scenario.fetcher Scenario.traffic_refused 5
         (fresh 0))
  = Return Scenario.refused_report
  /\ Spec.has_record Scenario.refused_report (Scenario.repo "a" 7)
  /\ Spec.has_record Scenario.refused_report (Scenario.repo "b" 0).
Proof.
  pose proof (every_repository_has_its_repository_info Scenario.fetcher
                Scenario.traffic_refused 5 (fresh 0)
                (snd (get_user_repos Scenario.fetcher
                        Scenario.traffic_refused 5 (fresh 0)))
                (snd (get_all_traffic_data Scenario.fetcher
                        Scenario.traffic_refused 5 (fresh 0)))
                [Scenario.repo "a" 7; Scenario.repo "b" 0]
                Scenario.refused_report) as H.
  split; [reflexivity|].
  split; apply H; try reflexivity.
  - left. reflexivity.
  - right. left. reflexivity.
Defined.

(** * Further properties of the transport *)

Import Laws.

Lemma sends_upto_silent {A : Type} (req : Request) (n : nat) (m : M A) :
  silent m -> sends_upto req n m.
Proof.
  intros H w. exists 0%nat. cbn [repeat]. rewrite app_nil_r.
  split; [lia | apply H].
Qed.

Lemma sends_upto_bind {A B : Type} (req : Request) (n1 n2 : nat) (m : M A)
    (k : A -> M B) :
  sends_upto req n1 m -> (forall a, sends_upto req n2 (k a)) ->
  sends_upto req (n1 + n2) (bind m k).
Proof.
  intros Hm Hk w. destruct (Hm w) as (c & Hle & Hc). unfold bind.
  destruct (m w) as [[a | e | x] w']; cbn [snd] in *.
  - destruct (Hk a w') as (c' & Hle' & Hc'). exists (c + c')%nat.
    split; [lia|]. rewrite Hc', Hc, repeat_app, app_assoc. reflexivity.
  - exists c. split; [lia | exact Hc].
  - exists c. split; [lia | exact Hc].
Qed.

Lemma sends_upto_more {A : Type} (req : Request) (n n' : nat) (m : M A) :
  (n <= n')%nat -> sends_upto req n m -> sends_upto req n' m.
Proof.
  intros Hle H w. destruct (H w) as (c & Hc & Hs).
  exists c. split; [lia | exact Hs].
Qed.

Section Bounds.

Variable self : GitHubTrafficFetcher.
Variable server : nat -> Request -> Event.

Lemma sends_upto_attempts (url : string)
    (params : option (list (string * json))) (range : list nat) :
  sends_upto (request self url params) (List.length range)
    (attempts self server url params range).
Proof.
  induction range as [|attempt range IH]; cbn [attempts List.length].
  - apply sends_upto_silent, silent_pure. reflexivity.
  - apply (sends_upto_bind _ 1 (List.length range)).
    + intros w. exists 1%nat. split; [lia | reflexivity].
    + intros [response | | ].
      * destruct (status_code response =? 429).
        -- apply (sends_upto_bind _ 0 (List.length range));
             [apply sends_upto_silent, silent_retry_after_of|].
           intros retry_after.
           apply (sends_upto_bind _ 0 (List.length range));
             [apply sends_upto_silent, silent_sleep|].
           intros _. exact IH.
        -- apply sends_upto_silent.
           apply silent_bind; [apply silent_check_rate_limit|]. intros _.
           intros w. reflexivity.
      * destruct (Z.of_nat attempt <? Z.of_nat (max_retries self) - 1).
        -- apply (sends_upto_bind _ 0 (List.length range));
             [apply sends_upto_silent, silent_back_off|].
           intros _. exact IH.
        -- apply sends_upto_silent, silent_pure. reflexivity.
      * apply sends_upto_silent, silent_pure. reflexivity.
Qed.

End Bounds.

(** X1.  Whatever the server answers and however the call ends,
    [make_request] sends one and the same request (the URL, the parameters
    and the timeout it was given) at most [max_retries] times, and nothing
    else. *)
Theorem make_request_sends_at_most_max_retries
    (self : GitHubTrafficFetcher) (server : nat -> Request -> Event)
    (url : string) (params : option (list (string * json))) (w : World) :
  exists c : nat,
    (c <= max_retries self)%nat
    /\ sent (snd (make_request self server url params w))
       = sent w ++ repeat (request self url params) c.
Proof.
  destruct (sends_upto_attempts self server url params
              (seq 0 (max_retries self)) w) as (c & Hle & Hc).
  rewrite length_seq in Hle. exists c. split; assumption.
Qed.

Section Origin.

Variable self : GitHubTrafficFetcher.
Variable server : nat -> Request -> Event.

(** A response the loop hands back is the answer to one of the requests it
    sent, and not a 429. *)
Lemma attempts_response_origin (url : string)
    (params : option (list (string * json))) (range : list nat) :
  forall (w w' : World) (r : Response),
    attempts self server url params range w = (Return (Some r), w') ->
    status_code r <> 429
    /\ exists n : nat,
         (List.length (sent w) <= n < List.length (sent w'))%nat
         /\ server n (request self url params) = Resp r.
Proof.
  induction range as [|attempt range IH]; intros w w' r; cbn [attempts].
  - intros H. discriminate H.
  - unfold bind at 1. unfold session_get.
    set (req := request self url params).
    assert (Hlen : List.length (sent (requested req w))
                   = S (List.length (sent w)))
      by (cbn [requested sent]; rewrite length_app; cbn; lia).
    destruct (server (List.length (sent w)) req) as [response | | ] eqn:Hev.
    + destruct (status_code response =? 429) eqn:Hs.
      * unfold bind at 1.
        pose proof (silent_retry_after_of response (requested req w)) as S1.
        destruct (retry_after_of response _) as [[retry_after | e | c] w1];
          try (intros H; discriminate H).
        unfold bind at 1.
        pose proof (silent_sleep (inject_Z retry_after) w1) as S2.
        destruct (sleep _ w1) as [[[] | e | c] w2];
          try (intros H; discriminate H).
        cbn [snd] in S1, S2. intros H.
        destruct (IH _ _ _ H) as (Hne & n & Hn & Hsrv).
        split; [exact Hne|]. exists n. split; [|exact Hsrv].
        rewrite S2, S1, Hlen in Hn. lia.
      * unfold bind at 1.
        pose proof (silent_check_rate_limit (Some response)
                      (requested req w)) as S1.
        destruct (check_rate_limit _ _) as [[[] | e | c] w1];
          try (intros H; discriminate H).
        cbn [snd] in S1. cbn. intros H. injection H as Hr Hw. subst r w'.
        apply Z.eqb_neq in Hs. split; [exact Hs|].
        exists (List.length (sent w)). split; [|exact Hev].
        cbn [with_retry_delay sent]. rewrite S1, Hlen. lia.
    + destruct (Z.of_nat attempt <? Z.of_nat (max_retries self) - 1).
      * unfold bind at 1.
        pose proof (silent_back_off (requested req w)) as S1.
        destruct (back_off _) as [[[] | e | c] w1];
          try (intros H; discriminate H).
        cbn [snd] in S1. intros H.
        destruct (IH _ _ _ H) as (Hne & n & Hn & Hsrv).
        split; [exact Hne|]. exists n. split; [|exact Hsrv].
        rewrite S1, Hlen in Hn. lia.
      * intros H. discriminate H.
    + intros H. discriminate H.
Qed.

End Origin.

(** X2.  A response that [make_request] returns is never a 429, and it is
    the answer the server gave to one of the requests of this very call. *)
Theorem returned_response_was_served
    (self : GitHubTrafficFetcher) (server : nat -> Request -> Event)
    (url : string) (params : option (list (string * json)))
    (w w' : World) (r : Response) :
  make_request self server url params w = (Return (Some r), w') ->
  status_code r <> 429
  /\ exists n : nat,
       (List.length (sent w) <= n < List.length (sent w'))%nat
       /\ server n (request self url params) = Resp r.
Proof.
  apply attempts_response_origin.
Qed.

(** After two throttles of the quota script, the answer is the third one
    the server gave. *)
Lemma returned_response_was_served_after_throttles :
  let url := "https://api.github.com/user/repos" in
  let server := Scenario.script [Resp Scenario.throttled;
                                 Resp Scenario.throttled]
                  (Resp Scenario.success) in
  let run := make_request Scenario.fetcher server url None (fresh 0) in
  status_code Scenario.success <> 429
  /\ exists n : nat,
       (0 <= n < List.length (sent (snd run)))%nat
       /\ server n (request Scenario.fetcher url None)
          = Resp Scenario.success.
Proof.
  apply (returned_response_was_served Scenario.fetcher
           (Scenario.script [Resp Scenario.throttled;
                             Resp Scenario.throttled]
              (Resp Scenario.success))
           "https://api.github.com/user/repos" None (fresh 0)).
  reflexivity.
Defined.

(** ** The backoff delay never drops below its base *)

Lemma keeps_bind {A B : Type} (P : World -> Prop) (m : M A) (k : A -> M B) :
  keeps P m -> (forall a, keeps P (k a)) -> keeps P (bind m k).
Proof.
  intros Hm Hk w HP. specialize (Hm w HP). unfold bind.
  destruct (m w) as [[a | e | c] w']; cbn [snd] in *.
  - apply Hk. exact Hm.
  - exact Hm.
  - exact Hm.
Qed.

Lemma keeps_same_delay {A : Type} (d : Z) (m : M A) :
  (forall w, retry_delay (snd (m w)) = retry_delay w) ->
  keeps (fun w => d <= retry_delay w) m.
Proof.
  intros H w HP. rewrite H. exact HP.
Qed.

Lemma same_delay_bind {A B : Type} (m : M A) (k : A -> M B) :
  (forall w, retry_delay (snd (m w)) = retry_delay w) ->
  (forall a w, retry_delay (snd (k a w)) = retry_delay w) ->
  forall w, retry_delay (snd (bind m k w)) = retry_delay w.
Proof.
  intros Hm Hk w. specialize (Hm w). unfold bind.
  destruct (m w) as [[a | e | c] w']; cbn [snd] in *.
  - rewrite Hk. exact Hm.
  - exact Hm.
  - exact Hm.
Qed.

Lemma same_delay_sleep (d : Q) (w : World) :
  retry_delay (snd (sleep d w)) = retry_delay w.
Proof.
  unfold sleep. destruct (Qle_bool 0 d); reflexivity.
Qed.

Lemma same_delay_check_rate_limit (response : option Response) (w : World) :
  retry_delay (snd (check_rate_limit response w)) = retry_delay w.
Proof.
  revert w. destruct response as [r|]; [|reflexivity].
  unfold check_rate_limit.
  destruct (negb (ok r)); [reflexivity|].
  apply same_delay_bind.
  - destruct (headers_get (headers r) "X-RateLimit-Remaining") as [s|];
      [|reflexivity].
    destruct (truthy_str s); [|reflexivity].
    apply same_delay_bind; [reflexivity|]. intros n w. reflexivity.
  - intros [|]; [|reflexivity].
    destruct (headers_get (headers r) "X-RateLimit-Reset") as [t|];
      [|apply same_delay_sleep].
    destruct (truthy_str t); [|apply same_delay_sleep].
    apply same_delay_bind; [reflexivity|]. intros reset.
    apply same_delay_bind; [reflexivity|]. intros now.
    apply same_delay_sleep.
Qed.

Section Base.

Variable self : GitHubTrafficFetcher.
Variable server : nat -> Request -> Event.

Lemma keeps_base_attempts (url : string)
    (params : option (list (string * json))) (range : list nat) :
  keeps (fun w => 2 <= retry_delay w)
    (attempts self server url params range).
Proof.
  induction range as [|attempt range IH]; cbn [attempts].
  - intros w H. exact H.
  - apply keeps_bind; [intros w H; exact H|].
    intros [response | | ].
    + destruct (status_code response =? 429).
      * apply keeps_bind.
        -- apply keeps_same_delay. intros w. unfold retry_after_of.
           destruct (headers_get (headers response) "Retry-After");
             reflexivity.
        -- intros retry_after. apply keeps_bind; [|intros _; exact IH].
           apply keeps_same_delay, same_delay_sleep.
      * intros w H. unfold bind.
        destruct (check_rate_limit (Some response) w) as [[[] | e | c] w1]
          eqn:E.
        -- cbn. lia.
        -- cbn [snd].
           pose proof (same_delay_check_rate_limit (Some response) w) as S.
           rewrite E in S. cbn [snd] in S. rewrite S. exact H.
        -- cbn [snd].
           pose proof (same_delay_check_rate_limit (Some response) w) as S.
           rewrite E in S. cbn [snd] in S. rewrite S. exact H.
    + destruct (Z.of_nat attempt <? Z.of_nat (max_retries self) - 1).
      * apply keeps_bind; [|intros _; exact IH].
        intros w H. unfold back_off, bind, get_retry_delay, sleep.
        destruct (Qle_bool 0 (inject_Z (retry_delay w))); cbn; lia.
      * intros w H. exact H.
    + intros w H. exact H.
Qed.

End Base.

(** X3.  The backoff delay never drops below its base of 2 seconds: a call
    of [make_request] that starts with a delay of at least 2 ends, however
    it ends, with a delay of at least 2. *)
Theorem backoff_delay_stays_at_or_above_base
    (self : GitHubTrafficFetcher) (server : nat -> Request -> Event)
    (url : string) (params : option (list (string * json))) (w : World) :
  2 <= retry_delay w ->
  2 <= retry_delay (snd (make_request self server url params w)).
Proof.
  apply keeps_base_attempts.
Qed.

Lemma backoff_delay_stays_at_or_above_base_offline :
  2 <= retry_delay
         (snd (make_request Scenario.fetcher Scenario.offline
                 "https://api.github.com/user/repos" None (fresh 0))).
Proof.
  apply (backoff_delay_stays_at_or_above_base Scenario.fetcher
           Scenario.offline "https://api.github.com/user/repos" None
           (fresh 0)).
  simpl. lia.
Defined.

(** ** Attempts that are retried *)

Lemma backoffs_S (d : Z) (k : nat) :
  backoffs d (S k) = inject_Z d :: backoffs (d * 2) k.
Proof.
  unfold backoffs. cbn [seq map]. f_equal.
  - f_equal. cbn. lia.
  - rewrite <- seq_shift, map_map. apply map_ext. intros i. f_equal.
    rewrite Nat2Z.inj_succ, Z.pow_succ_r by lia. ring.
Qed.

Lemma seq_split (k n : nat) :
  (k < n)%nat -> seq 0 n = seq 0 k ++ k :: seq (S k) (n - S k).
Proof.
  intros Hlt. replace n with (k + S (n - S k))%nat at 1 by lia.
  rewrite seq_app. reflexivity.
Qed.

Lemma after_failures_sent (req : Request) (k : nat) :
  forall w, sent (after_failures req k w) = sent w ++ repeat req k.
Proof.
  induction k as [|k IH]; intros w; cbn [after_failures repeat].
  - rewrite app_nil_r. reflexivity.
  - rewrite IH. cbn [with_retry_delay asleep requested sent].
    rewrite <- app_assoc. reflexivity.
Qed.

Lemma after_failures_slept (req : Request) (k : nat) :
  forall w,
    slept (after_failures req k w) = slept w ++ backoffs (retry_delay w) k.
Proof.
  induction k as [|k IH]; intros w; cbn [after_failures].
  - cbn. rewrite app_nil_r. reflexivity.
  - rewrite IH, backoffs_S.
    cbn [with_retry_delay asleep requested slept retry_delay].
    rewrite <- app_assoc. reflexivity.
Qed.

Lemma after_failures_delay (req : Request) (k : nat) :
  forall w,
    retry_delay (after_failures req k w) = retry_delay w * 2 ^ Z.of_nat k.
Proof.
  induction k as [|k IH]; intros w; cbn [after_failures].
  - cbn. lia.
  - rewrite IH. cbn [with_retry_delay retry_delay].
    rewrite Nat2Z.inj_succ, Z.pow_succ_r by lia. ring.
Qed.




Lemma retry_after_of_spec (r : Response) (t : Z) :
  retry_after r t -> retry_after_of r = ret t.
Proof.
  intros H. unfold retry_after_of.
  destruct H as [r Hnone | r s t Hsome Hint].
  - rewrite Hnone. reflexivity.
  - rewrite Hsome, Hint. reflexivity.
Qed.

(** Nothing to wait for: [check_rate_limit] returns at once. *)
Lemma check_rate_limit_enough (r : Response) (w : World) :
  enough_calls_left r -> check_rate_limit (Some r) w = (Return tt, w).
Proof.
  intros H. unfold check_rate_limit.
  destruct (negb (ok r)); [reflexivity|].
  destruct H as [Hnone | Hblank | s n Hsome Hint Hge].
  - rewrite Hnone. reflexivity.
  - rewrite Hblank. reflexivity.
  - rewrite Hsome, (int_of_str_nonempty s n Hint), Hint.
    apply Z.ltb_ge in Hge. cbn. rewrite Hge. reflexivity.
Qed.

Section Retries.

Variable self : GitHubTrafficFetcher.
Variable server : nat -> Request -> Event.
Variables (url : string) (params : option (list (string * json))).

Let req : Request := request self url params.

Lemma attempts_after_failures (k : nat) :
  forall (attempt : nat) (range : list nat) (w : World),
    (forall i : nat, (i < k)%nat ->
       server (List.length (sent w) + i)%nat req = NetworkError) ->
    (attempt + k < max_retries self)%nat ->
    0 <= retry_delay w ->
    attempts self server url params (seq attempt k ++ range) w
    = attempts self server url params range (after_failures req k w).
Proof.
  induction k as [|k IH]; intros attempt range w Hsrv Hlt Hd.
  - reflexivity.
  - cbn [seq app after_failures].
    rewrite attempts_network_error_retry.
    + apply IH.
      * intros i Hi.
        cbn [with_retry_delay asleep requested sent].
        rewrite length_app. cbn [List.length].
        rewrite <- Nat.add_assoc. apply Hsrv. lia.
      * lia.
      * cbn [with_retry_delay retry_delay]. lia.
    + rewrite <- (Nat.add_0_r (List.length (sent w))). apply Hsrv. lia.
    + lia.
    + exact Hd.
Qed.


End Retries.

(** X4.  Network failures short of the last attempt are survived: when the
    first [k] attempts fail, [k] below [max_retries], and the next one is
    answered by a response that is not a 429 and does not call for
    throttling, [make_request] backs off [d], [2 d], ..., [2^(k-1) d]
    seconds ([d] being the delay it found), sends [k + 1] requests, returns
    that response and leaves the delay at 2. *)
Theorem network_failures_then_a_response
    (self : GitHubTrafficFetcher) (server : nat -> Request -> Event)
    (url : string) (params : option (list (string * json))) (w : World)
    (k : nat) (r : Response) :
  (k < max_retries self)%nat ->
  0 <= retry_delay w ->
  (forall i : nat, (i < k)%nat ->
     server (List.length (sent w) + i)%nat (request self url params)
     = NetworkError) ->
  server (List.length (sent w) + k)%nat (request self url params) = Resp r ->
  status_code r <> 429 ->
  enough_calls_left r ->
  let run := make_request self server url params w in
  fst run = Return (Some r)
  /\ slept (snd run) = slept w ++ backoffs (retry_delay w) k
  /\ sent (snd run) = sent w ++ repeat (request self url params) (S k)
  /\ retry_delay (snd run) = 2.
Proof.
  intros Hk Hd Hfail Hev Hs Hquiet run. subst run.
  unfold make_request. rewrite (seq_split k _ Hk).
  rewrite (attempts_after_failures self server url params k 0 _ w Hfail)
    by (lia || assumption).
  rewrite (attempts_response self server url params k _ _ r).
  - unfold bind. rewrite (check_rate_limit_enough r _ Hquiet).
    cbn [fst snd set_retry_delay ret with_retry_delay requested
           slept sent retry_delay].
    rewrite after_failures_slept, after_failures_sent.
    rewrite <- app_assoc.
    replace (repeat (request self url params) k ++ [request self url params])
      with (repeat (request self url params) (S k))
      by (cbn [repeat]; rewrite repeat_cons; reflexivity).
    repeat split.
  - rewrite after_failures_sent, length_app, repeat_length. exact Hev.
  - exact Hs.
Qed.

Lemma network_failures_then_a_response_twice :
  let url := "https://api.github.com/user/repos" in
  let server := Scenario.script [NetworkError; NetworkError]
                  (Resp Scenario.success) in
  let run := make_request Scenario.fetcher server url None (fresh 0) in
  fst run = Return (Some Scenario.success)
  /\ slept (snd run) = [2; 4]%Q
  /\ sent (snd run) = repeat (request Scenario.fetcher url None) 3
  /\ retry_delay (snd run) = 2.
Proof.
  apply (network_failures_then_a_response Scenario.fetcher
           (Scenario.script [NetworkError; NetworkError]
              (Resp Scenario.success))
           "https://api.github.com/user/repos" None (fresh 0) 2
           Scenario.success).
  - simpl. lia.
  - simpl. lia.
  - intros [|[|i]] Hi; [reflexivity | reflexivity | lia].
  - reflexivity.
  - simpl. lia.
  - apply calls_unknown. reflexivity.
Defined.

(** X5.  A request exception that is neither a timeout nor a connection
    error is never retried: in whichever attempt it comes, after [k] failed
    ones, [make_request] returns [None] at once, without another sleep or
    request, and the delay stays as the [k] backoffs left it. *)
Theorem request_exception_is_not_retried
    (self : GitHubTrafficFetcher) (server : nat -> Request -> Event)
    (url : string) (params : option (list (string * json))) (w : World)
    (k : nat) :
  (k < max_retries self)%nat ->
  0 <= retry_delay w ->
  (forall i : nat, (i < k)%nat ->
     server (List.length (sent w) + i)%nat (request self url params)
     = NetworkError) ->
  server (List.length (sent w) + k)%nat (request self url params)
  = RequestError ->
  let run := make_request self server url params w in
  fst run = Return None
  /\ slept (snd run) = slept w ++ backoffs (retry_delay w) k
  /\ sent (snd run) = sent w ++ repeat (request self url params) (S k)
  /\ retry_delay (snd run) = retry_delay w * 2 ^ Z.of_nat k.
Proof.
  intros Hk Hd Hfail Hev run. subst run.
  unfold make_request. rewrite (seq_split k _ Hk).
  rewrite (attempts_after_failures self server url params k 0 _ w Hfail)
    by (lia || assumption).
  cbn [attempts]. unfold bind, session_get.
  rewrite after_failures_sent, length_app, repeat_length, Hev.
  cbn [fst snd ret requested slept sent retry_delay].
  rewrite after_failures_slept, after_failures_sent, after_failures_delay.
  rewrite <- app_assoc.
  replace (repeat (request self url params) k ++ [request self url params])
    with (repeat (request self url params) (S k))
    by (cbn [repeat]; rewrite repeat_cons; reflexivity).
  repeat split.
Qed.

Lemma request_exception_is_not_retried_after_one_failure :
  let url := "https://api.github.com/user/repos" in
  let server := Scenario.script [NetworkError] RequestError in
  let run := make_request Scenario.fetcher server url None (fresh 0) in
  fst run = Return None
  /\ slept (snd run) = [2%Q]
  /\ sent (snd run) = repeat (request Scenario.fetcher url None) 2
  /\ retry_delay (snd run) = 4.
Proof.
  apply (request_exception_is_not_retried Scenario.fetcher
           (Scenario.script [NetworkError] RequestError)
           "https://api.github.com/user/repos" None (fresh 0) 1).
  - simpl. lia.
  - simpl. lia.
  - intros [|i] Hi; [reflexivity | lia].
  - reflexivity.
Defined.





(** ** The throttling threshold and the length of the throttling sleep *)

(** X8.  No proactive sleep at or above the threshold: in whichever attempt
    it arrives, a response other than a 429 whose remaining-calls header is
    absent, empty, or reads as an integer of at least 50 is returned at
    once, whatever its reset header holds: nothing is slept and only the
    delay is reset to 2. *)
Theorem no_throttling_at_fifty_or_more
    (self : GitHubTrafficFetcher) (server : nat -> Request -> Event)
    (url : string) (params : option (list (string * json)))
    (attempt : nat) (range : list nat) (w : World) (r : Response) :
  server (List.length (sent w)) (request self url params) = Resp r ->
  status_code r <> 429 ->
  enough_calls_left r ->
  attempts self server url params (attempt :: range) w
  = (Return (Some r),
     with_retry_delay 2 (requested (request self url params) w)).
Proof.
  intros Hev Hs Hquiet.
  rewrite (attempts_response self server url params attempt range w r Hev Hs).
  unfold bind. rewrite (check_rate_limit_enough r _ Hquiet). reflexivity.
Qed.

Lemma no_throttling_at_fifty :
  let url := "https://api.github.com/user/repos" in
  make_request Scenario.fetcher (fun _ _ => Resp Scenario.fifty_left)
    url None (fresh 900)
  = (Return (Some Scenario.fifty_left),
     with_retry_delay 2
       (requested (request Scenario.fetcher url None) (fresh 900))).
Proof.
  apply (no_throttling_at_fifty_or_more Scenario.fetcher
           (fun _ _ => Resp Scenario.fifty_left)
           "https://api.github.com/user/repos" None 0%nat (seq 1 2)
           (fresh 900) Scenario.fifty_left).
  - reflexivity.
  - simpl. lia.
  - apply calls_plenty with (s := "50") (n := 50);
      [reflexivity | reflexivity | lia].
Defined.



(** X10.  A 429 that asks for a negative wait, a whole number of seconds
    from [- longest_sleep] to -1, makes the call raise [ValueError]:
    [time.sleep] refuses the negative duration inside the [try], no
    [except] clause catches it, and nothing has been slept. *)
Theorem negative_retry_after_raises
    (self : GitHubTrafficFetcher) (server : nat -> Request -> Event)
    (url : string) (params : option (list (string * json)))
    (attempt : nat) (range : list nat) (w : World) (r : Response) (t : Z) :
  server (List.length (sent w)) (request self url params) = Resp r ->
  status_code r = 429 ->
  retry_after r t ->
  - longest_sleep <= t < 0 ->
  attempts self server url params (attempt :: range) w
  = (Raise ValueError, requested (request self url params) w).
Proof.
  intros Hev Hs Hra [_ Hneg].
  cbn [attempts]. unfold bind at 1. unfold session_get.
  rewrite Hev. apply Z.eqb_eq in Hs. rewrite Hs.
  rewrite (retry_after_of_spec r t Hra).
  unfold bind, ret, sleep.
  assert (Hb : Qle_bool 0 (inject_Z t) = false).
  { destruct (Qle_bool 0 (inject_Z t)) eqn:E; [|reflexivity].
    apply Qle_bool_iff in E. unfold Qle, inject_Z in E. simpl in E. lia. }
  rewrite Hb. reflexivity.
Qed.

Lemma negative_retry_after_raises_minus_one :
  let url := "https://api.github.com/user/repos" in
  make_request Scenario.fetcher
    (fun _ _ => Resp Scenario.throttled_backwards) url None (fresh 0)
  = (Raise ValueError,
     requested (request Scenario.fetcher url None) (fresh 0)).
Proof.
  apply (negative_retry_after_raises Scenario.fetcher
           (fun _ _ => Resp Scenario.throttled_backwards)
           "https://api.github.com/user/repos" None 0%nat (seq 1 2)
           (fresh 0) Scenario.throttled_backwards (-1)).
  - reflexivity.
  - reflexivity.
  - apply retry_after_given with (s := "-1"); reflexivity.
  - unfold longest_sleep. lia.
Defined.

(** * Further properties of the collector *)

Lemma ok_200 (r : Response) : status_code r = 200 -> ok r = true.
Proof.
  intros H. unfold ok. rewrite H. reflexivity.
Qed.

Section Metrics.

Variable self : GitHubTrafficFetcher.
Variable server : nat -> Request -> Event.

Lemma get_or_report_outcome (endpoint : string) (w w' : World)
    (res : option Response) :
  make_request self server endpoint None w = (Return res, w') ->
  get_or_report self server endpoint w
  = (match res with
     | Some r => body_or_none r
     | None => Raise AttributeError
     end, w').
Proof.
  intros H. unfold get_or_report. unfold bind at 1. rewrite H.
  destruct res as [r|]; [|reflexivity].
  unfold body_or_none.
  destruct (status_code r =? 200) eqn:Hs.
  - apply Z.eqb_eq in Hs.
    cbn [truthy_response]. rewrite (ok_200 r Hs).
    cbn [bind attr_status_code ret]. rewrite Hs.
    cbn. destruct (body r); reflexivity.
  - cbn [truthy_response]. destruct (ok r).
    + cbn [bind attr_status_code ret]. rewrite Hs. reflexivity.
    + reflexivity.
Qed.

End Metrics.

(** X11.  [get_repo_views] turns every outcome of the transport into a
    value: the decoded body for a 200, [None] for any other status and also
    when the transport returned [None]; it raises only when the body of a
    200 is not JSON. *)
Theorem get_repo_views_outcome
    (self : GitHubTrafficFetcher) (server : nat -> Request -> Event)
    (repo_name : string) (w w' : World) (res : option Response) :
  make_request self server (traffic_url self repo_name "views") None w
  = (Return res, w') ->
  get_repo_views self server repo_name w
  = (match res with
     | Some r => body_or_none r
     | None => Return JNull
     end, w').
Proof.
  intros H. unfold get_repo_views. unfold bind at 1. rewrite H.
  destruct res as [r|]; [|reflexivity].
  unfold body_or_none.
  destruct (status_code r =? 200) eqn:Hs.
  - apply Z.eqb_eq in Hs.
    cbn [truthy_response]. rewrite (ok_200 r Hs).
    cbn [bind attr_status_code ret]. rewrite Hs.
    cbn. destruct (body r); reflexivity.
  - cbn [truthy_response]. destruct (ok r).
    + cbn [bind attr_status_code ret]. rewrite Hs. reflexivity.
    + reflexivity.
Qed.

(** The views endpoint cannot be reached: [views] is [None]. *)
Lemma get_repo_views_outcome_offline :
  get_repo_views Scenario.fetcher Scenario.offline "a" (fresh 0)
  = (Return JNull,
     snd (make_request Scenario.fetcher Scenario.offline
            (traffic_url Scenario.fetcher "a" "views") None (fresh 0))).
Proof.
  apply (get_repo_views_outcome Scenario.fetcher Scenario.offline "a"
           (fresh 0) _ None).
  reflexivity.
Defined.

(** X12.  [get_repo_clones], [get_repo_referrers] and [get_popular_paths]
    return the decoded body for a 200 and [None] for any other status; they
    raise [AttributeError] when the transport returned [None], and
    [JSONDecodeError] when the body of a 200 is not JSON. *)
Theorem metric_method_outcome
    (self : GitHubTrafficFetcher) (server : nat -> Request -> Event)
    (e : endpoint) (repo_name : string) (w w' : World)
    (res : option Response) :
  make_request self server (traffic_url self repo_name (suffix e)) None w
  = (Return res, w') ->
  method self server e repo_name w
  = (match res with
     | Some r => body_or_none r
     | None => Raise AttributeError
     end, w').
Proof.
  intros H. destruct e; apply get_or_report_outcome; exact H.
Qed.

(** The referrers of a repository are refused with a 403: [None]. *)
Lemma metric_method_outcome_refused :
  get_repo_referrers Scenario.fetcher Scenario.traffic_refused "a" (fresh 0)
  = (Return JNull,
     snd (make_request Scenario.fetcher Scenario.traffic_refused
            (traffic_url Scenario.fetcher "a" "popular/referrers") None
            (fresh 0))).
Proof.
  apply (metric_method_outcome Scenario.fetcher Scenario.traffic_refused
           Referrers "a" (fresh 0) _ (Some (mkResponse 403 [] None))).
  reflexivity.
Defined.

(** ** The requests of one collection *)

Lemma bursts_app (reqs1 reqs2 : list Request) (counts1 counts2 : list nat) :
  List.length counts1 = List.length reqs1 ->
  bursts (reqs1 ++ reqs2) (counts1 ++ counts2)
  = bursts reqs1 counts1 ++ bursts reqs2 counts2.
Proof.
  revert counts1. unfold bursts.
  induction reqs1 as [|req reqs1 IH]; intros [|c counts1] Hlen;
    try discriminate Hlen.
  - reflexivity.
  - cbn [app combine flat_map fst snd].
    rewrite IH by (cbn in Hlen; lia).
    rewrite app_assoc. reflexivity.
Qed.

Lemma bursts_none (reqs : list Request) :
  bursts reqs (repeat 0%nat (List.length reqs)) = [].
Proof.
  unfold bursts. induction reqs as [|req reqs IH]; [reflexivity|].
  cbn. exact IH.
Qed.

Lemma sends_bursts_silent {A : Type} (n : nat) (m : M A) :
  silent m -> sends_bursts [] n m.
Proof.
  intros H w. exists []. cbn. rewrite app_nil_r.
  split; [reflexivity|]. split; [constructor | apply H].
Qed.

Lemma sends_bursts_one {A : Type} (req : Request) (n : nat) (m : M A) :
  sends_upto req n m -> sends_bursts [req] n m.
Proof.
  intros H w. destruct (H w) as (c & Hle & Hs). exists [c].
  split; [reflexivity|]. split; [repeat constructor; exact Hle|].
  rewrite Hs. unfold bursts. cbn. rewrite app_nil_r. reflexivity.
Qed.

Lemma sends_bursts_bind {A B : Type} (reqs1 reqs2 : list Request) (n : nat)
    (m : M A) (k : A -> M B) :
  sends_bursts reqs1 n m -> (forall a, sends_bursts reqs2 n (k a)) ->
  sends_bursts (reqs1 ++ reqs2) n (bind m k).
Proof.
  intros Hm Hk w. destruct (Hm w) as (c1 & Hl1 & Hf1 & Hs1). unfold bind.
  assert (Hstop :
    exists counts : list nat,
      List.length counts = List.length (reqs1 ++ reqs2)
      /\ Forall (fun c => (c <= n)%nat) counts
      /\ sent (snd (m w)) = sent w ++ bursts (reqs1 ++ reqs2) counts).
  { exists (c1 ++ repeat 0%nat (List.length reqs2)).
    split; [rewrite !length_app, repeat_length, Hl1; reflexivity|].
    split.
    - apply Forall_app. split; [exact Hf1|].
      apply Forall_forall. intros c Hc. apply repeat_spec in Hc. lia.
    - rewrite (bursts_app _ _ _ _ Hl1), bursts_none, app_nil_r. exact Hs1. }
  destruct (m w) as [[a | e | x] w']; cbn [snd] in *.
  - destruct (Hk a w') as (c2 & Hl2 & Hf2 & Hs2).
    exists (c1 ++ c2).
    split; [rewrite !length_app, Hl1, Hl2; reflexivity|].
    split; [apply Forall_app; split; assumption|].
    rewrite Hs2, Hs1, (bursts_app _ _ _ _ Hl1), app_assoc. reflexivity.
  - exact Hstop.
  - exact Hstop.
Qed.

Section Collection.

Variable self : GitHubTrafficFetcher.
Variable server : nat -> Request -> Event.

Lemma silent_attr_status_code (response : option Response) :
  silent (attr_status_code response).
Proof.
  destruct response; apply silent_pure; reflexivity.
Qed.

Lemma silent_call_json (response : option Response) :
  silent (call_json response).
Proof.
  destruct response as [r|]; [|apply silent_pure; reflexivity].
  cbn. destruct (body r); apply silent_pure; reflexivity.
Qed.

Lemma silent_is_200 (response : option Response) :
  silent (if truthy_response response
          then sc <- attr_status_code response ;; ret (sc =? 200)
          else ret false).
Proof.
  destruct (truthy_response response); [|apply silent_pure; reflexivity].
  apply silent_bind; [apply silent_attr_status_code|].
  intros sc. apply silent_pure. reflexivity.
Qed.

Lemma sends_upto_make_request (url : string)
    (params : option (list (string * json))) :
  sends_upto (request self url params) (max_retries self)
    (make_request self server url params).
Proof.
  intros w.
  destruct (sends_upto_attempts self server url params
              (seq 0 (max_retries self)) w) as (c & Hle & Hc).
  rewrite length_seq in Hle. exists c. split; assumption.
Qed.

Lemma sends_upto_get_repo_views (repo_name : string) :
  sends_upto (request self (traffic_url self repo_name "views") None)
    (max_retries self) (get_repo_views self server repo_name).
Proof.
  unfold get_repo_views.
  rewrite <- (Nat.add_0_r (max_retries self)).
  apply sends_upto_bind; [apply sends_upto_make_request|].
  intros response. apply sends_upto_silent.
  apply silent_bind; [apply silent_is_200|]. intros [|].
  - apply silent_call_json.
  - apply silent_bind; [|intros _; apply silent_pure; reflexivity].
    destruct (truthy_response response); [|apply silent_pure; reflexivity].
    apply silent_bind; [apply silent_attr_status_code|].
    intros _. apply silent_pure. reflexivity.
Qed.

Lemma sends_upto_get_or_report (endpoint : string) :
  sends_upto (request self endpoint None) (max_retries self)
    (get_or_report self server endpoint).
Proof.
  unfold get_or_report.
  rewrite <- (Nat.add_0_r (max_retries self)).
  apply sends_upto_bind; [apply sends_upto_make_request|].
  intros response. apply sends_upto_silent.
  apply silent_bind; [apply silent_is_200|]. intros [|].
  - apply silent_call_json.
  - apply silent_bind; [apply silent_attr_status_code|].
    intros _. apply silent_pure. reflexivity.
Qed.

Lemma sends_bursts_get_repo_traffic_data (repo_name : string) :
  sends_bursts
    [request self (traffic_url self repo_name "views") None;
     request self (traffic_url self repo_name "clones") None;
     request self (traffic_url self repo_name "popular/referrers") None;
     request self (traffic_url self repo_name "popular/paths") None]
    (max_retries self)
    (get_repo_traffic_data self server repo_name).
Proof.
  unfold get_repo_traffic_data, get_repo_clones, get_repo_referrers,
    get_popular_paths.
  apply (sends_bursts_bind [_] [_; _; _]);
    [apply sends_bursts_one, sends_upto_get_repo_views|]. intros views.
  apply (sends_bursts_bind [] [_; _; _]);
    [apply sends_bursts_silent, silent_sleep|]. intros _.
  apply (sends_bursts_bind [_] [_; _]);
    [apply sends_bursts_one, sends_upto_get_or_report|]. intros clones.
  apply (sends_bursts_bind [] [_; _]);
    [apply sends_bursts_silent, silent_sleep|]. intros _.
  apply (sends_bursts_bind [_] [_]);
    [apply sends_bursts_one, sends_upto_get_or_report|]. intros referrers.
  apply (sends_bursts_bind [] [_]);
    [apply sends_bursts_silent, silent_sleep|]. intros _.
  apply (sends_bursts_bind [_] []);
    [apply sends_bursts_one, sends_upto_get_or_report|].
  intros popular_paths.
  apply sends_bursts_silent, silent_pure. reflexivity.
Qed.

End Collection.

(** X13.  Whatever the server answers and however it ends, collecting one
    repository sends requests to nothing but the four traffic endpoints of
    that repository, without parameters, in the order views, clones,
    referrers, popular paths, and to each at most [max_retries] times: at
    most four times [max_retries] requests in all. *)
Theorem collection_requests_four_endpoints_in_order
    (self : GitHubTrafficFetcher) (server : nat -> Request -> Event)
    (repo_name : string) (w : World) :
  exists k1 k2 k3 k4 : nat,
    (k1 <= max_retries self /\ k2 <= max_retries self
     /\ k3 <= max_retries self /\ k4 <= max_retries self)%nat
    /\ sent (snd (get_repo_traffic_data self server repo_name w))
       = sent w
         ++ repeat (request self (traffic_url self repo_name "views") None)
              k1
         ++ repeat (request self (traffic_url self repo_name "clones") None)
              k2
         ++ repeat
              (request self (traffic_url self repo_name "popular/referrers")
                 None) k3
         ++ repeat
              (request self (traffic_url self repo_name "popular/paths")
                 None) k4.
Proof.
  destruct (sends_bursts_get_repo_traffic_data self server repo_name w)
    as (counts & Hlen & Hle & Hs).
  destruct counts as [|k1 [|k2 [|k3 [|k4 [|k5 counts]]]]];
    try discriminate Hlen.
  exists k1, k2, k3, k4.
  inversion Hle as [|? ? H1 Hle1]; subst.
  inversion Hle1 as [|? ? H2 Hle2]; subst.
  inversion Hle2 as [|? ? H3 Hle3]; subst.
  inversion Hle3 as [|? ? H4 _]; subst.
  split; [repeat split; assumption|].
  rewrite Hs. unfold bursts. cbn [combine flat_map fst snd].
  rewrite app_nil_r. reflexivity.
Qed.

(** * Further properties of the aggregator *)

Lemma dict_set_set {V : Type} (d : list (string * V)) (k : string)
    (v1 v2 : V) :
  dict_set (dict_set d k v1) k v2 = dict_set d k v2.
Proof.
  induction d as [|[k' v'] d IH]; cbn [dict_set].
  - rewrite String.eqb_refl. reflexivity.
  - destruct (String.eqb k k') eqn:E; cbn [dict_set]; rewrite E.
    + reflexivity.
    + rewrite IH. reflexivity.
Qed.

Lemma dict_set_Forall {V : Type} (P : V -> Prop) (d : list (string * V))
    (k : string) (v : V) :
  Forall P (map snd d) -> P v -> Forall P (map snd (dict_set d k v)).
Proof.
  intros Hd Hv. induction d as [|[k' v'] d IH]; cbn [dict_set].
  - repeat constructor. exact Hv.
  - cbn [map snd] in Hd. inversion Hd as [|? ? Hv' Hd']; subst.
    destruct (String.eqb k k'); cbn [map snd]; constructor; auto.
Qed.

Lemma dict_set_new_key {V : Type} (d : list (string * V)) (k : string)
    (v : V) :
  ~ In k (map fst d) -> map fst (dict_set d k v) = map fst d ++ [k].
Proof.
  intros Hnew. induction d as [|[k' v'] d IH]; cbn [dict_set].
  - reflexivity.
  - cbn [map fst In] in Hnew.
    destruct (String.eqb_spec k k') as [E|E].
    + subst. exfalso. apply Hnew. left. reflexivity.
    + cbn [map fst app]. rewrite IH; [reflexivity|].
      intros Hin. apply Hnew. right. exact Hin.
Qed.

Lemma dict_get_In {V : Type} (d : list (string * V)) (k : string) (v : V) :
  dict_get d k = Some v -> In v (map snd d).
Proof.
  induction d as [|[k' v'] d IH]; cbn [dict_get map snd In].
  - intros H. discriminate H.
  - destruct (String.eqb k k').
    + intros H. injection H as H. left. exact H.
    + intros H. right. apply IH. exact H.
Qed.

Section Report.

Variable self : GitHubTrafficFetcher.
Variable server : nat -> Request -> Event.

(** One round of the loop over the repositories, for a run that returns. *)
Lemma repositories_step (total_repos i : Z) (repo : json)
    (repos : list json) (all report : list (string * json))
    (w w' : World) :
  repositories self server total_repos i (repo :: repos) all w
  = (Return report, w') ->
  exists (key : string) (info : list (string * json))
         (views clones referrers popular_paths : json)
         (wa wb wc : World),
    subscript repo "name" = Return (JStr key)
    /\ get_repo_traffic_data self server key wa
       = (Return [("views", views); ("clones", clones);
                  ("referrers", referrers);
                  ("popular_paths", popular_paths)], wb)
    /\ repositories self server total_repos (i + 1) repos
         (dict_set all key
            (JDict [("repository_info", JDict info);
                    ("views", views);
                    ("clones", clones);
                    ("referrers", referrers);
                    ("popular_paths", popular_paths)])) wc
       = (Return report, w').
Proof.
  intros H. cbn [repositories] in H.
  bind_inv H repo_name w1 H1. apply lift_Return_inv in H1.
  bind_inv H full_name w2 H2. bind_inv H description w3 H3.
  bind_inv H stars w4 H4. bind_inv H forks w5 H5.
  bind_inv H language w6 H6. bind_inv H created_at w7 H7.
  bind_inv H updated_at w8 H8. bind_inv H key w9 H9.
  assert (Hkey : repo_name = JStr key).
  { destruct repo_name; cbn in H9; try discriminate H9.
    injection H9 as Hs _. subst. reflexivity. }
  subst repo_name.
  bind_inv H traffic_data w10 H10.
  destruct (get_repo_traffic_data_keys self server key w9 w10 traffic_data
              H10)
    as (views & clones & referrers & popular_paths & Htd).
  subst traffic_data.
  rewrite dict_get_set_same in H.
  bind_inv H all' w11 H11. cbn in H11. injection H11 as Hall _.
  bind_inv H u w12 H12.
  rewrite dict_set_set in Hall. subst all'.
  eexists key, _, views, clones, referrers, popular_paths, w9, w10, w12.
  split; [exact H1|]. split; [exact H10|]. exact H.
Qed.

Lemma repositories_Forall (P : json -> Prop) (repos : list json) :
  (forall (key : string) (info : list (string * json))
          (views clones referrers popular_paths : json) (wa wb : World),
     get_repo_traffic_data self server key wa
     = (Return [("views", views); ("clones", clones);
                ("referrers", referrers);
                ("popular_paths", popular_paths)], wb) ->
     P (JDict [("repository_info", JDict info);
               ("views", views);
               ("clones", clones);
               ("referrers", referrers);
               ("popular_paths", popular_paths)])) ->
  forall (total_repos i : Z) (all report : list (string * json))
         (w w' : World),
    Forall P (map snd all) ->
    repositories self server total_repos i repos all w
    = (Return report, w') ->
    Forall P (map snd report).
Proof.
  intros HP. induction repos as [|repo repos IH];
    intros total_repos i all report w w' Hall H.
  - cbn in H. injection H as Hr _. subst report. exact Hall.
  - destruct (repositories_step _ _ _ _ _ _ _ _ H)
      as (key & info & views & clones & referrers & popular_paths
          & wa & wb & wc & _ & Hcollect & Hrest).
    apply (IH _ _ _ _ _ _ (dict_set_Forall P all key _ Hall
                             (HP _ info _ _ _ _ _ _ Hcollect)) Hrest).
Qed.

Lemma repositories_keys (repos : list json) :
  forall (total_repos i : Z) (all report : list (string * json))
         (w w' : World),
    NoDup (map key_name all ++ map name_of repos) ->
    repositories self server total_repos i repos all w
    = (Return report, w') ->
    map key_name report = map key_name all ++ map name_of repos.
Proof.
  induction repos as [|repo repos IH];
    intros total_repos i all report w w' Hnd H.
  - cbn in H. injection H as Hr _. subst report.
    cbn. rewrite app_nil_r. reflexivity.
  - destruct (repositories_step _ _ _ _ _ _ _ _ H)
      as (key & info & views & clones & referrers & popular_paths
          & wa & wb & wc & Hname & _ & Hrest).
    cbn [map] in Hnd |- *. unfold name_of at 1 in Hnd. unfold name_of at 1.
    rewrite Hname in Hnd |- *.
    assert (Hnew : ~ In key (map fst all)).
    { intros Hin. apply NoDup_remove_2 in Hnd. apply Hnd.
      apply in_or_app. left.
      apply in_map_iff in Hin. destruct Hin as ([k v] & Hk & Hin).
      cbn in Hk. subst k.
      apply in_map_iff. exists (key, v). split; [reflexivity | exact Hin]. }
    assert (Hkeys :
      map key_name
        (dict_set all key
           (JDict [("repository_info", JDict info);
                   ("views", views);
                   ("clones", clones);
                   ("referrers", referrers);
                   ("popular_paths", popular_paths)]))
      = map key_name all ++ [Return (JStr key)]).
    { pose proof (dict_set_new_key all key
                    (JDict [("repository_info", JDict info);
                            ("views", views);
                            ("clones", clones);
                            ("referrers", referrers);
                            ("popular_paths", popular_paths)]) Hnew) as Hk.
      unfold key_name.
      rewrite <- (map_map fst (fun k => Return (JStr k))), Hk, map_app.
      rewrite (map_map fst (fun k => Return (JStr k))). reflexivity. }
    rewrite (IH _ _ _ _ _ _ ltac:(rewrite Hkeys, <- app_assoc; exact Hnd)
               Hrest).
    rewrite Hkeys, <- app_assoc. reflexivity.
Qed.

End Report.

(** X14.  The keys of the report follow the enumeration: when the names of
    the enumerated repositories are all different, the report that
    [get_all_traffic_data] returns has exactly these names as its keys, in
    the order of the enumeration. *)
Theorem report_keys_follow_the_enumeration
    (self : GitHubTrafficFetcher) (server : nat -> Request -> Event)
    (fuel : nat) (w w1 w2 : World) (repos : list json)
    (report : list (string * json)) :
  get_user_repos self server fuel w = (Return repos, w1) ->
  get_all_traffic_data self server fuel w = (Return report, w2) ->
  NoDup (map name_of repos) ->
  map key_name report = map name_of repos.
Proof.
  intros Hrepos Hrun Hnd.
  unfold get_all_traffic_data in Hrun.
  bind_inv Hrun repos' w1' Hrepos'.
  rewrite Hrepos in Hrepos'. injection Hrepos' as Hr Hw. subst repos' w1'.
  destruct repos as [|first repos].
  - cbn in Hrun. injection Hrun as Hr _. subst report. reflexivity.
  - cbn [truthy negb] in Hrun.
    apply (repositories_keys self server _ _ _ [] _ _ _ Hnd Hrun).
Qed.

Lemma report_keys_follow_the_enumeration_a_b :
  map key_name Scenario.end_to_end_report
  = map name_of [Scenario.repo "a" 7; Scenario.repo "b" 0].
Proof.
  apply (report_keys_follow_the_enumeration Scenario.fetcher
           Scenario.end_to_end 5 (fresh 0)
           (snd (get_user_repos Scenario.fetcher Scenario.end_to_end 5
                   (fresh 0)))
           (snd (get_all_traffic_data Scenario.fetcher Scenario.end_to_end 5
                   (fresh 0)))).
  - reflexivity.
  - reflexivity.
  - repeat constructor; cbn; intuition discriminate.
Defined.

(** X15.  Every record of a report that [get_all_traffic_data] returns is
    a dictionary with exactly the five fields [repository_info], [views],
    [clones], [referrers] and [popular_paths], in this order. *)
Theorem every_record_has_the_five_fields
    (self : GitHubTrafficFetcher) (server : nat -> Request -> Event)
    (fuel : nat) (w w' : World) (report : list (string * json))
    (name : string) (record : json) :
  get_all_traffic_data self server fuel w = (Return report, w') ->
  dict_get report name = Some record ->
  five_fields record.
Proof.
  intros Hrun Hget.
  assert (Hall : Forall five_fields (map snd report)).
  { unfold get_all_traffic_data in Hrun.
    bind_inv Hrun repos w1 Hrepos.
    destruct (negb (truthy (JList repos))).
    - cbn in Hrun. injection Hrun as Hr _. subst report. constructor.
    - refine (repositories_Forall self server five_fields repos
                _ _ _ _ _ _ _ _ Hrun); [|constructor].
      intros key info views clones referrers popular_paths wa wb _.
      exists info, views, clones, referrers, popular_paths. reflexivity. }
  rewrite Forall_forall in Hall. apply Hall.
  apply (dict_get_In report name record Hget).
Qed.

Lemma every_record_has_the_five_fields_refused :
  five_fields
    (JDict [("repository_info", Scenario.info "b" 0);
            ("views", JNull);
            ("clones", JNull);
            ("referrers", JNull);
            ("popular_paths", JNull)]).
Proof.
  apply (every_record_has_the_five_fields Scenario.fetcher
           Scenario.traffic_refused 5 (fresh 0)
           (snd (get_all_traffic_data Scenario.fetcher
                   Scenario.traffic_refused 5 (fresh 0)))
           Scenario.refused_report "b").
  - reflexivity.
  - reflexivity.
Defined.

(** X16.  A listing that yields nothing is not an error: when the request
    for page 1 makes the transport return [None], a status other than 200,
    or an empty page, [get_all_traffic_data] returns the empty report, and
    the requests for page 1 are all it has sent. *)
Theorem empty_listing_gives_an_empty_report
    (self : GitHubTrafficFetcher) (server : nat -> Request -> Event)
    (fuel : nat) (w : World) (c : nat) :
  0 <= retry_delay w ->
  Spec.serves self server (List.length (sent w)) 1 [] [] c ->
  (0 < fuel)%nat ->
  let run := get_all_traffic_data self server fuel w in
  fst run = Return []
  /\ sent (snd run) = sent w ++ repeat (Spec.page_request self 1) c.
Proof.
  intros Hd Hserves Hfuel run. subst run.
  destruct (pages_serves self server [] [] fuel
              [("per_page", JNum 100); ("type", JStr "owner")] [] 1 w c)
    as (Hf & Hs); try assumption.
  { intros page. reflexivity. }
  cbn [List.length List.concat Spec.page_requests app Z.of_nat] in Hf, Hs.
  unfold get_all_traffic_data, get_user_repos, bind.
  destruct (pages self server fuel _ [] 1 w) as [o w1].
  cbn [fst snd] in Hf, Hs. subst o.
  cbn [truthy negb ret fst snd]. split; [reflexivity | exact Hs].
Qed.

Lemma empty_listing_gives_an_empty_report_offline :
  let run := get_all_traffic_data Scenario.fetcher Scenario.offline 5
               (fresh 0) in
  fst run = Return []
  /\ sent (snd run) = repeat (Spec.page_request Scenario.fetcher 1) 3.
Proof.
  apply (empty_listing_gives_an_empty_report Scenario.fetcher
           Scenario.offline 5 (fresh 0) 3).
  - simpl. lia.
  - apply Spec.serves_last with (res := None).
    + reflexivity.
    + apply Spec.stops_failure.
  - lia.
Defined.

(** A round that gets a page whose body is not JSON. *)
Lemma pages_garbled (self : GitHubTrafficFetcher)
    (server : nat -> Request -> Event) (fuel : nat)
    (params : list (string * json)) (repos : list json) (page : Z)
    (w : World) (r : Response) (c : nat) :
  Spec.paged params ->
  0 <= retry_delay w ->
  Spec.transport self server (List.length (sent w)) (repos_url self)
    (Requests.params (Spec.page_request self page)) = (Return (Some r), c) ->
  status_code r = 200 ->
  body r = None ->
  fst (pages self server (S fuel) params repos page w)
  = Raise JSONDecodeError.
Proof.
  intros Hp Hd Ht Hs Hbody.
  destruct (make_request_as_transport self server _ _ w _ c Hd Ht)
    as (Hf & _ & _).
  cbn [Spec.page_request request Requests.params] in Hf.
  cbn [pages]. rewrite Hp. unfold bind at 1.
  destruct (make_request self server (repos_url self) _ w) as [o w1].
  cbn [fst] in Hf. subst o.
  apply Z.eqb_eq in Hs. rewrite Hs. cbn [negb].
  unfold bind at 1. cbn [call_json]. rewrite Hbody. reflexivity.
Qed.

Lemma pages_garbled_after (self : GitHubTrafficFetcher)
    (server : nat -> Request -> Event) (good : nat) :
  forall (fuel : nat) (params : list (string * json)) (repos : list json)
         (page : Z) (w : World),
    Spec.paged params ->
    0 <= retry_delay w ->
    garbled_after self server (List.length (sent w)) page good ->
    (good < fuel)%nat ->
    fst (pages self server fuel params repos page w)
    = Raise JSONDecodeError.
Proof.
  induction good as [|good IH];
    intros fuel params repos page w Hp Hd Hg Hfuel;
    (destruct fuel as [|fuel]; [lia|]).
  - inversion Hg as [n p r c Ht Hs Hbody | ]; subst.
    apply (pages_garbled self server fuel params repos page w r c
             Hp Hd Ht Hs Hbody).
  - inversion Hg as [ | n p r items k good' Ht Hs Hbody Hne Hrest]; subst.
    destruct (pages_step self server fuel params repos page w r items k
                Hp Hd Ht Hs Hbody Hne) as (w' & Heq & Hsent & Hd').
    rewrite Heq.
    apply IH.
    + intros p. reflexivity.
    + exact Hd'.
    + rewrite Hsent, length_app, repeat_length. exact Hrest.
    + lia.
Qed.

(** X17.  A listing page that comes with status 200 and a body that is not
    JSON is not a stop, whichever page it is: after any number of pages of
    items, [response.json()] raises on it, and the exception leaves
    [get_user_repos] and [get_all_traffic_data]; the items of the pages
    before it are lost. *)
Theorem garbled_listing_page_raises
    (self : GitHubTrafficFetcher) (server : nat -> Request -> Event)
    (fuel : nat) (w : World) (good : nat) :
  0 <= retry_delay w ->
  garbled_after self server (List.length (sent w)) 1 good ->
  (good < fuel)%nat ->
  fst (get_user_repos self server fuel w) = Raise JSONDecodeError
  /\ fst (get_all_traffic_data self server fuel w) = Raise JSONDecodeError.
Proof.
  intros Hd Hg Hfuel.
  assert (H : fst (get_user_repos self server fuel w)
              = Raise JSONDecodeError).
  { unfold get_user_repos.
    apply (pages_garbled_after self server good); try assumption.
    intros p. reflexivity. }
  split; [exact H|].
  unfold get_all_traffic_data, bind.
  destruct (get_user_repos self server fuel w) as [o w1].
  cbn [fst] in H. subst o. reflexivity.
Qed.

(** Two pages are read before the garbled third one. *)
Lemma garbled_listing_page_raises_on_page_3 :
  fst (get_user_repos Scenario.fetcher Scenario.garbled_third_page 5
         (fresh 0))
  = Raise JSONDecodeError
  /\ fst (get_all_traffic_data Scenario.fetcher Scenario.garbled_third_page
            5 (fresh 0))
     = Raise JSONDecodeError.
Proof.
  apply (garbled_listing_page_raises Scenario.fetcher
           Scenario.garbled_third_page 5 (fresh 0) 2).
  - simpl. lia.
  - apply garbled_later
      with (r := Scenario.json_page Scenario.page1)
           (items := Scenario.page1) (k := 1%nat);
      [reflexivity | reflexivity | reflexivity | discriminate | ].
    apply garbled_later
      with (r := Scenario.json_page Scenario.page2)
           (items := Scenario.page2) (k := 1%nat);
      [reflexivity | reflexivity | reflexivity | discriminate | ].
    apply garbled_now with (r := mkResponse 200 [] None) (c := 1%nat);
      reflexivity.
  - lia.
Defined.

(** ** From the report to the summary *)

Lemma metric_ok_count_only (v : json) :
  Spec.metric_ok ["count"; "uniques"] (Some v) = true ->
  Spec.metric_ok ["count"] (Some v) = true.
Proof.
  destruct v as [ | b | n | s | l | m]; cbn [Spec.metric_ok forallb];
    intros H; try discriminate H; try reflexivity.
  apply andb_prop in H. destruct H as (Hc & _). rewrite Hc. reflexivity.
Qed.

Section Served.

Variable self : GitHubTrafficFetcher.
Variable server : nat -> Request -> Event.

(** A metric that is not [None] is the body of a 200 the server gave to a
    request for its endpoint. *)
Lemma get_repo_views_value (repo_name : string) (w w' : World) (v : json) :
  get_repo_views self server repo_name w = (Return v, w') ->
  v = JNull
  \/ exists (n : nat) (r : Response),
       server n (request self (traffic_url self repo_name "views") None)
       = Resp r
       /\ status_code r = 200 /\ body r = Some v.
Proof.
  intros H. unfold get_repo_views in H.
  bind_inv H res w1 H1.
  destruct res as [r|].
  - destruct (attempts_response_origin self server _ _ _ _ _ _ H1)
      as (_ & n & _ & Hsrv).
    destruct (status_code r =? 200) eqn:Hs.
    + apply Z.eqb_eq in Hs.
      cbn [truthy_response] in H. rewrite (ok_200 r Hs) in H.
      cbn [bind attr_status_code ret] in H. rewrite Hs in H.
      cbn in H. destruct (body r) as [j|] eqn:Hbody; [|discriminate H].
      injection H as Hj _. subst j.
      right. exists n, r. repeat split; assumption.
    + left. cbn [truthy_response] in H. destruct (ok r).
      * cbn [bind attr_status_code ret] in H. rewrite Hs in H.
        cbn in H. injection H as Hv _. symmetry. exact Hv.
      * cbn in H. injection H as Hv _. symmetry. exact Hv.
  - left. cbn in H. injection H as Hv _. symmetry. exact Hv.
Qed.

Lemma get_or_report_value (endpoint : string) (w w' : World) (v : json) :
  get_or_report self server endpoint w = (Return v, w') ->
  v = JNull
  \/ exists (n : nat) (r : Response),
       server n (request self endpoint None) = Resp r
       /\ status_code r = 200 /\ body r = Some v.
Proof.
  intros H. unfold get_or_report in H.
  bind_inv H res w1 H1.
  destruct res as [r|]; [|cbn in H; discriminate H].
  destruct (attempts_response_origin self server _ _ _ _ _ _ H1)
    as (_ & n & _ & Hsrv).
  destruct (status_code r =? 200) eqn:Hs.
  - apply Z.eqb_eq in Hs.
    cbn [truthy_response] in H. rewrite (ok_200 r Hs) in H.
    cbn [bind attr_status_code ret] in H. rewrite Hs in H.
    cbn in H. destruct (body r) as [j|] eqn:Hbody; [|discriminate H].
    injection H as Hj _. subst j.
    right. exists n, r. repeat split; assumption.
  - left. cbn [truthy_response] in H. destruct (ok r).
    + cbn [bind attr_status_code ret] in H. rewrite Hs in H.
      cbn in H. injection H as Hv _. symmetry. exact Hv.
    + cbn in H. injection H as Hv _. symmetry. exact Hv.
Qed.

Hypothesis served : counts_served self server.

Lemma collected_record_ok (key : string) (info : list (string * json))
    (views clones referrers popular_paths : json) (wa wb : World) :
  get_repo_traffic_data self server key wa
  = (Return [("views", views); ("clones", clones);
             ("referrers", referrers);
             ("popular_paths", popular_paths)], wb) ->
  Spec.record_ok
    (JDict [("repository_info", JDict info);
            ("views", views);
            ("clones", clones);
            ("referrers", referrers);
            ("popular_paths", popular_paths)]) = true.
Proof.
  intros H. unfold get_repo_traffic_data in H.
  bind_inv H v w1 H1. bind_inv H u1 w2 H2.
  bind_inv H c w3 H3. bind_inv H u2 w4 H4.
  bind_inv H r w5 H5. bind_inv H u3 w6 H6.
  bind_inv H p w7 H7.
  cbn in H. injection H as Hv Hc _ _ _. subst v c.
  assert (Hviews : Spec.metric_ok ["count"; "uniques"] (Some views) = true).
  { destruct (get_repo_views_value key _ _ views H1)
      as [E | (n & resp & Hsrv & Hs & Hb)]; [subst; reflexivity|].
    apply (served n key "views" resp views (or_introl eq_refl) Hsrv Hs Hb). }
  assert (Hclones : Spec.metric_ok ["count"] (Some clones) = true).
  { apply metric_ok_count_only.
    destruct (get_or_report_value _ _ _ clones H3)
      as [E | (n & resp & Hsrv & Hs & Hb)]; [subst; reflexivity|].
    apply (served n key "clones" resp clones (or_intror eq_refl)
             Hsrv Hs Hb). }
  cbn [Spec.record_ok dict_get String.eqb Ascii.eqb Bool.eqb].
  rewrite Hviews, Hclones. reflexivity.
Qed.

End Served.

(** X18.  A report that [get_all_traffic_data] returns can always be
    summarized: when the views and clones endpoints answer a 200 with
    nothing but dictionaries of numbers, [print_summary] of the report
    raises nothing, and its totals are the sums of [views.count],
    [views.uniques] and [clones.count] over the records of the report. *)
Theorem returned_report_is_summarized
    (self : GitHubTrafficFetcher) (server : nat -> Request -> Event)
    (fuel : nat) (w w' : World) (report : list (string * json)) :
  counts_served self server ->
  get_all_traffic_data self server fuel w = (Return report, w') ->
  print_summary report
  = Return
      {| total_views := Spec.total report "views" "count";
         total_unique_views := Spec.total report "views" "uniques";
         total_clones := Spec.total report "clones" "count" |}.
Proof.
  intros Hserved Hrun.
  assert (Hall : Forall (fun record => Spec.record_ok record = true)
                   (map snd report)).
  { unfold get_all_traffic_data in Hrun.
    bind_inv Hrun repos w1 Hrepos.
    destruct (negb (truthy (JList repos))).
    - cbn in Hrun. injection Hrun as Hr _. subst report. constructor.
    - refine (repositories_Forall self server _ repos
                _ _ _ _ _ _ _ _ Hrun); [|constructor].
      intros key info views clones referrers popular_paths wa wb Hcollect.
      apply (collected_record_ok self server Hserved key info _ _ _ _ _ _
               Hcollect). }
  assert (Hok : Spec.report_ok report = true).
  { unfold Spec.report_ok. apply forallb_forall. intros [k record] Hin.
    rewrite Forall_forall in Hall. apply Hall.
    apply in_map_iff. exists (k, record). split; [reflexivity | exact Hin]. }
  unfold print_summary. rewrite (summary_totals report _ Hok). reflexivity.
Qed.

Lemma returned_report_is_summarized_same_counts :
  print_summary Scenario.same_counts_report
  = Return {| total_views := 6; total_unique_views := 2; total_clones := 6 |}.
Proof.
  apply (returned_report_is_summarized Scenario.fetcher Scenario.same_counts
           5 (fresh 0)
           (snd (get_all_traffic_data Scenario.fetcher Scenario.same_counts 5
                   (fresh 0)))).
  - intros n repo_name suffix r j Hsuffix Hsrv Hs Hbody.
    cbn in Hsrv. injection Hsrv as Hr. subst r.
    cbn in Hbody. injection Hbody as Hj. subst j. reflexivity.
  - reflexivity.
Defined.

(** * Further properties of the paginator *)

Lemma sends_such_silent {A : Type} (P : Request -> Prop) (m : M A) :
  silent m -> sends_such P m.
Proof.
  intros H w. exists []. rewrite app_nil_r. split; [apply H | constructor].
Qed.

Lemma sends_such_upto {A : Type} (P : Request -> Prop) (req : Request)
    (n : nat) (m : M A) :
  P req -> sends_upto req n m -> sends_such P m.
Proof.
  intros HP H w. destruct (H w) as (c & _ & Hs).
  exists (repeat req c). split; [exact Hs|].
  apply Forall_forall. intros x Hx. apply repeat_spec in Hx. subst x.
  exact HP.
Qed.

Lemma sends_such_bind {A B : Type} (P : Request -> Prop) (m : M A)
    (k : A -> M B) :
  sends_such P m -> (forall a, sends_such P (k a)) ->
  sends_such P (bind m k).
Proof.
  intros Hm Hk w. destruct (Hm w) as (l & Hl & HP). unfold bind.
  destruct (m w) as [[a | e | c] w']; cbn [snd] in *.
  - destruct (Hk a w') as (l' & Hl' & HP'). exists (l ++ l').
    split; [rewrite Hl', Hl, app_assoc; reflexivity|].
    apply Forall_app. split; assumption.
  - exists l. split; assumption.
  - exists l. split; assumption.
Qed.

Section Listing.

Variable self : GitHubTrafficFetcher.
Variable server : nat -> Request -> Event.

Lemma sends_such_pages (fuel : nat) :
  forall (params : list (string * json)) (repos : list json) (page : Z),
    Spec.paged params ->
    1 <= page ->
    sends_such (listing_request self)
      (pages self server fuel params repos page).
Proof.
  induction fuel as [|fuel IH]; intros params repos page Hp Hpage;
    cbn [pages].
  - apply sends_such_silent, silent_pure. reflexivity.
  - rewrite Hp. apply sends_such_bind.
    + apply (sends_such_upto _ (Spec.page_request self page)
               (max_retries self)).
      * exists page. split; [exact Hpage | reflexivity].
      * apply sends_upto_make_request.
    + intros [r|]; [|apply sends_such_silent, silent_pure; reflexivity].
      destruct (negb (status_code r =? 200));
        [apply sends_such_silent, silent_pure; reflexivity|].
      apply sends_such_bind;
        [apply sends_such_silent, silent_call_json|].
      intros page_repos.
      destruct (negb (truthy page_repos));
        [apply sends_such_silent, silent_pure; reflexivity|].
      apply sends_such_bind;
        [apply sends_such_silent, silent_pure; reflexivity|].
      intros repos'.
      apply sends_such_bind; [apply sends_such_silent, silent_sleep|].
      intros _. apply IH; [intros p; reflexivity | lia].
Qed.

End Listing.

(** X19.  Whatever the server answers and however it ends, every request
    that [get_user_repos] sends is a request to the listing endpoint for
    some page from 1 on, with [per_page = 100] and [type = owner]. *)
Theorem get_user_repos_sends_only_page_requests
    (self : GitHubTrafficFetcher) (server : nat -> Request -> Event)
    (fuel : nat) (w : World) :
  exists l : list Request,
    sent (snd (get_user_repos self server fuel w)) = sent w ++ l
    /\ Forall (listing_request self) l.
Proof.
  apply (sends_such_pages self server fuel); [|lia].
  intros page. reflexivity.
Qed.

(** * Further properties of the summary *)

Lemma total_Permutation (report1 report2 : list (string * json))
    (field key : string) :
  Permutation report1 report2 ->
  Spec.total report1 field key = Spec.total report2 field key.
Proof.
  intros H. unfold Spec.total.
  induction H as [ | x l l' _ IH | x y l | l l' l'' _ IH1 _ IH2].
  - reflexivity.
  - cbn [fold_right]. rewrite IH. reflexivity.
  - cbn [fold_right]. lia.
  - rewrite IH1. exact IH2.
Qed.

Lemma report_ok_Permutation (report1 report2 : list (string * json)) :
  Permutation report1 report2 ->
  Spec.report_ok report1 = true -> Spec.report_ok report2 = true.
Proof.
  unfold Spec.report_ok. intros H Hok.
  apply forallb_forall. intros x Hx.
  rewrite forallb_forall in Hok. apply Hok.
  apply (Permutation_in x (Permutation_sym H) Hx).
Qed.

(** X20.  The totals do not depend on the order of the report: for reports
    whose views and clones are absent or dictionaries of numbers,
    [print_summary] prints the same three totals for any two reports that
    hold the same records in a different order. *)
Theorem print_summary_ignores_the_order
    (report1 report2 : list (string * json)) :
  Spec.report_ok report1 = true ->
  Permutation report1 report2 ->
  print_summary report1 = print_summary report2.
Proof.
  intros Hok Hperm. unfold print_summary.
  rewrite (summary_totals report1 _ Hok).
  rewrite (summary_totals report2 _ (report_ok_Permutation _ _ Hperm Hok)).
  rewrite (total_Permutation _ _ "views" "count" Hperm).
  rewrite (total_Permutation _ _ "views" "uniques" Hperm).
  rewrite (total_Permutation _ _ "clones" "count" Hperm).
  reflexivity.
Qed.

Lemma print_summary_ignores_the_order_b_a :
  print_summary Scenario.end_to_end_report
  = print_summary (rev Scenario.end_to_end_report).
Proof.
  apply (print_summary_ignores_the_order Scenario.end_to_end_report
           (rev Scenario.end_to_end_report)).
  - reflexivity.
  - apply Permutation_rev.
Defined.

(** * A collection without incident *)

Section Quiet.

Variable self : GitHubTrafficFetcher.
Variable server : nat -> Request -> Event.

Hypothesis some_attempt : (0 < max_retries self)%nat.

Lemma make_request_answered (url : string) (w : World) (v : json) :
  answered server (List.length (sent w)) (request self url None) v ->
  exists r : Response,
    make_request self server url None w
    = (Return (Some r),
       with_retry_delay 2 (requested (request self url None) w))
    /\ body_or_none r = Return v.
Proof.
  intros (r & Hev & Hs & Hquiet & Hbody). exists r. split; [|exact Hbody].
  unfold make_request.
  destruct (max_retries self) as [|k]; [lia|]. cbn [seq].
  rewrite (attempts_response self server url None 0%nat _ w r Hev Hs).
  unfold bind. rewrite (check_rate_limit_enough r _ Hquiet). reflexivity.
Qed.

Lemma get_repo_views_result (repo_name : string) (w w' : World)
    (res : option Response) :
  make_request self server (traffic_url self repo_name "views") None w
  = (Return res, w') ->
  get_repo_views self server repo_name w
  = (match res with
     | Some r => body_or_none r
     | None => Return JNull
     end, w').
Proof.
  intros H. unfold get_repo_views. unfold bind at 1. rewrite H.
  destruct res as [r|]; [|reflexivity].
  unfold body_or_none.
  destruct (status_code r =? 200) eqn:Hs.
  - apply Z.eqb_eq in Hs.
    cbn [truthy_response]. rewrite (ok_200 r Hs).
    cbn [bind attr_status_code ret]. rewrite Hs.
    cbn. destruct (body r); reflexivity.
  - cbn [truthy_response]. destruct (ok r).
    + cbn [bind attr_status_code ret]. rewrite Hs. reflexivity.
    + reflexivity.
Qed.

Lemma get_repo_views_answered (repo_name : string) (w : World) (v : json) :
  answered server (List.length (sent w))
    (request self (traffic_url self repo_name "views") None) v ->
  get_repo_views self server repo_name w
  = (Return v,
     with_retry_delay 2
       (requested (request self (traffic_url self repo_name "views") None)
          w)).
Proof.
  intros H. destruct (make_request_answered _ w v H) as (r & Hreq & Hbody).
  rewrite (get_repo_views_result repo_name w _ (Some r) Hreq), Hbody.
  reflexivity.
Qed.

Lemma get_or_report_answered (endpoint : string) (w : World) (v : json) :
  answered server (List.length (sent w)) (request self endpoint None) v ->
  get_or_report self server endpoint w
  = (Return v,
     with_retry_delay 2 (requested (request self endpoint None) w)).
Proof.
  intros H. destruct (make_request_answered _ w v H) as (r & Hreq & Hbody).
  rewrite (get_or_report_outcome self server endpoint w _ (Some r) Hreq),
    Hbody.
  reflexivity.
Qed.

End Quiet.

(** X21.  A collection without incident: when each of the four traffic
    endpoints of a repository answers at once with a response that is no
    429 and calls for no throttling, [get_repo_traffic_data] returns the
    four metrics under [views], [clones], [referrers] and [popular_paths]
    (the decoded body of a 200, [None] for any other status), sends exactly
    one request to each endpoint in that order, and sleeps
    [api_call_delay] after each of the first three fetches and not after
    the last. *)
Theorem collection_without_incident
    (self : GitHubTrafficFetcher) (server : nat -> Request -> Event)
    (repo_name : string) (w : World)
    (views clones referrers popular_paths : json) :
  (0 < max_retries self)%nat ->
  (0 <= api_call_delay self)%Q ->
  let n := List.length (sent w) in
  let req := fun suffix =>
               request self (traffic_url self repo_name suffix) None in
  answered server n (req "views") views ->
  answered server (n + 1) (req "clones") clones ->
  answered server (n + 2) (req "popular/referrers") referrers ->
  answered server (n + 3) (req "popular/paths") popular_paths ->
  let run := get_repo_traffic_data self server repo_name w in
  fst run = Return [("views", views); ("clones", clones);
                    ("referrers", referrers);
                    ("popular_paths", popular_paths)]
  /\ slept (snd run)
     = slept w
       ++ [api_call_delay self; api_call_delay self; api_call_delay self]
  /\ sent (snd run)
     = sent w
       ++ [req "views"; req "clones"; req "popular/referrers";
           req "popular/paths"]
  /\ retry_delay (snd run) = 2.
Proof.
  intros Hmax Hdelay n req H1 H2 H3 H4 run. subst run.
  assert (Hrun :
    exists w' : World,
      get_repo_traffic_data self server repo_name w
      = (Return [("views", views); ("clones", clones);
                 ("referrers", referrers);
                 ("popular_paths", popular_paths)], w')
      /\ slept w'
         = slept w
           ++ [api_call_delay self; api_call_delay self;
               api_call_delay self]
      /\ sent w'
         = sent w
           ++ [req "views"; req "clones"; req "popular/referrers";
               req "popular/paths"]
      /\ retry_delay w' = 2).
  { unfold get_repo_traffic_data, get_repo_clones, get_repo_referrers,
      get_popular_paths.
    unfold bind at 1.
    rewrite (get_repo_views_answered self server Hmax repo_name w views H1).
    unfold bind at 1. rewrite sleep_nonneg by exact Hdelay.
    set (w1 := asleep _ _).
    assert (L1 : List.length (sent w1) = (n + 1)%nat)
      by (subst w1 n; cbn; rewrite length_app; reflexivity).
    rewrite <- L1 in H2.
    unfold bind at 1.
    rewrite (get_or_report_answered self server Hmax _ w1 clones H2).
    unfold bind at 1. rewrite sleep_nonneg by exact Hdelay.
    set (w2 := asleep _ _).
    assert (L2 : List.length (sent w2) = (n + 2)%nat)
      by (subst w2; cbn [asleep with_retry_delay requested sent];
          rewrite length_app, L1; cbn [List.length]; lia).
    rewrite <- L2 in H3.
    unfold bind at 1.
    rewrite (get_or_report_answered self server Hmax _ w2 referrers H3).
    unfold bind at 1. rewrite sleep_nonneg by exact Hdelay.
    set (w3 := asleep _ _).
    assert (L3 : List.length (sent w3) = (n + 3)%nat)
      by (subst w3; cbn [asleep with_retry_delay requested sent];
          rewrite length_app, L2; cbn [List.length]; lia).
    rewrite <- L3 in H4.
    unfold bind at 1.
    rewrite (get_or_report_answered self server Hmax _ w3 popular_paths H4).
    eexists. split; [reflexivity|].
    subst w3 w2 w1.
    cbn [asleep with_retry_delay requested slept sent retry_delay].
    repeat rewrite <- app_assoc. repeat split. }
  destruct Hrun as (w' & Hrun & Hslept & Hsent & Hd).
  rewrite Hrun. cbn [fst snd]. repeat split; assumption.
Qed.

Lemma collection_without_incident_b :
  let req := fun suffix =>
               request Scenario.fetcher
                 (traffic_url Scenario.fetcher "b" suffix) None in
  let run := get_repo_traffic_data Scenario.fetcher Scenario.end_to_end "b"
               (fresh 0) in
  fst run = Return [("views", JNull); ("clones", Scenario.counts 5 3);
                    ("referrers", JList []); ("popular_paths", JList [])]
  /\ slept (snd run) = [1 # 2; 1 # 2; 1 # 2]%Q
  /\ sent (snd run)
     = [req "views"; req "clones"; req "popular/referrers";
        req "popular/paths"]
  /\ retry_delay (snd run) = 2.
Proof.
  apply (collection_without_incident Scenario.fetcher Scenario.end_to_end
           "b" (fresh 0)).
  - simpl. lia.
  - unfold Qle. simpl. lia.
  - exists (mkResponse 403 [] None).
    repeat split; [discriminate | apply calls_unknown; reflexivity].
  - exists (mkResponse 200 [] (Some (Scenario.counts 5 3))).
    repeat split; [discriminate | apply calls_unknown; reflexivity].
  - exists (mkResponse 200 [] (Some (JList []))).
    repeat split; [discriminate | apply calls_unknown; reflexivity].
  - exists (mkResponse 200 [] (Some (JList []))).
    repeat split; [discriminate | apply calls_unknown; reflexivity].
Defined.

(** * Whole runs against the same responses *)

Section WholeRun.

Variable self : GitHubTrafficFetcher.
Variables server1 server2 : nat -> Request -> Event.

Lemma agree_pages (fuel : nat) :
  forall (params : list (string * json)) (repos : list json) (page : Z),
    agree server1 server2
      (pages self server1 fuel params repos page)
      (pages self server2 fuel params repos page).
Proof.
  induction fuel as [|fuel IH]; intros params repos page; cbn [pages].
  - apply agree_stop.
  - apply agree_bind; [apply agree_make_request|].
    intros [r|]; [|apply agree_ret].
    destruct (negb (status_code r =? 200)); [apply agree_ret|].
    apply agree_bind; [apply agree_call_json|]. intros page_repos.
    destruct (negb (truthy page_repos)); [apply agree_ret|].
    apply agree_bind; [apply agree_lift|]. intros repos'.
    apply agree_bind; [apply agree_sleep|]. intros _.
    apply IH.
Qed.

Lemma agree_as_key (v : json) : agree server1 server2 (as_key v) (as_key v).
Proof.
  destruct v; cbn [as_key];
    first [apply agree_ret | apply agree_raise | apply agree_stop].
Qed.

Lemma agree_repositories (repos : list json) :
  forall (total_repos i : Z) (all : list (string * json)),
    agree server1 server2
      (repositories self server1 total_repos i repos all)
      (repositories self server2 total_repos i repos all).
Proof.
  induction repos as [|repo repos IH]; intros total_repos i all;
    cbn [repositories].
  - apply agree_ret.
  - apply agree_bind; [apply agree_lift|]. intros repo_name.
    apply agree_bind; [apply agree_lift|]. intros full_name.
    apply agree_bind; [apply agree_lift|]. intros description.
    apply agree_bind; [apply agree_lift|]. intros stars.
    apply agree_bind; [apply agree_lift|]. intros forks.
    apply agree_bind; [apply agree_lift|]. intros language.
    apply agree_bind; [apply agree_lift|]. intros created_at.
    apply agree_bind; [apply agree_lift|]. intros updated_at.
    apply agree_bind; [apply agree_as_key|]. intros key.
    apply agree_bind; [apply agree_get_repo_traffic_data|].
    intros traffic_data.
    apply agree_bind.
    + destruct (dict_get _ key) as [[ | | | | | record] | ];
        first [apply agree_ret | apply agree_raise].
    + intros all'.
      apply agree_bind; [|intros _; apply IH].
      destruct (i <? total_repos); [apply agree_sleep | apply agree_ret].
Qed.

Lemma agree_get_all_traffic_data (fuel : nat) :
  agree server1 server2
    (get_all_traffic_data self server1 fuel)
    (get_all_traffic_data self server2 fuel).
Proof.
  unfold get_all_traffic_data, get_user_repos.
  apply agree_bind; [apply agree_pages|]. intros repos.
  destruct (negb (truthy (JList repos))); [apply agree_ret|].
  apply agree_repositories.
Qed.

End WholeRun.

(** X22.  What a whole run returns depends only on the responses it is
    served: started in any two states of the transport, against servers
    that answer alike from there on, two runs of [get_all_traffic_data]
    end with the same report (or the same exception) and have sent the
    same requests in the same order. *)
Theorem run_depends_only_on_the_responses
    (self : GitHubTrafficFetcher) (server1 server2 : nat -> Request -> Event)
    (fuel : nat) (w1 w2 : World) :
  (forall (i : nat) (req : Request),
     server1 (List.length (sent w1) + i)%nat req
     = server2 (List.length (sent w2) + i)%nat req) ->
  0 <= retry_delay w1 ->
  0 <= retry_delay w2 ->
  let run1 := get_all_traffic_data self server1 fuel w1 in
  let run2 := get_all_traffic_data self server2 fuel w2 in
  fst run1 = fst run2
  /\ exists l : list Request,
       sent (snd run1) = sent w1 ++ l /\ sent (snd run2) = sent w2 ++ l.
Proof.
  intros Hsame Hd1 Hd2 run1 run2. subst run1 run2.
  destruct (agree_get_all_traffic_data self server1 server2 fuel w1 w2)
    as (Hf & Hl & _).
  { split; [exact Hsame | split; assumption]. }
  split; assumption.
Qed.

(** A second run, started with the delay and the clock a failure burst
    left. *)
Lemma run_depends_only_on_the_responses_after_a_burst :
  let run1 := get_all_traffic_data Scenario.fetcher Scenario.end_to_end 5
                (fresh 0) in
  let run2 := get_all_traffic_data Scenario.fetcher Scenario.end_to_end 5
                (with_retry_delay 8 (fresh 6)) in
  fst run1 = fst run2
  /\ exists l : list Request,
       sent (snd run1) = [] ++ l /\ sent (snd run2) = [] ++ l.
Proof.
  apply (run_depends_only_on_the_responses Scenario.fetcher
           Scenario.end_to_end Scenario.end_to_end 5 (fresh 0)
           (with_retry_delay 8 (fresh 6))).
  - intros i req. reflexivity.
  - simpl. lia.
  - simpl. lia.
Defined.

(** * The analysis script *)

Import Analyze.

Lemma count_of_metric (keys : list string) (v : json) :
  Spec.metric_ok ("count" :: keys) (Some v) = true ->
  method_get (or_empty v) "count" (JNum 0)
  = Return (JNum (Spec.count_in v "count")).
Proof.
  destruct v as [ | b | n | s | l | m]; cbn [Spec.metric_ok forallb];
    intros H; try discriminate H.
  - reflexivity.
  - apply andb_prop in H. destruct H as (Hc & _).
    unfold or_empty. destruct (truthy (JDict m)) eqn:T.
    + apply method_get_number. exact Hc.
    + destruct m as [|kv m]; [reflexivity | discriminate T].
Qed.

Lemma counts_rows (items : list (string * json)) :
  forall repo_views repo_clones : list (string * json),
    Spec.report_ok items = true ->
    counts items repo_views repo_clones
    = Return (repo_views ++ map (row "views") items,
              repo_clones ++ map (row "clones") items).
Proof.
  induction items as [|[repo_name data] items IH];
    intros repo_views repo_clones Hok.
  - cbn. rewrite !app_nil_r. reflexivity.
  - cbn [Spec.report_ok forallb snd] in Hok.
    apply andb_prop in Hok. destruct Hok as (Hrec & Hrest).
    destruct data as [ | b | n | s | l | d]; try discriminate Hrec.
    cbn [Spec.record_ok] in Hrec.
    apply andb_prop in Hrec. destruct Hrec as (Hv & Hc).
    cbn [counts]. rewrite !method_get_field. cbn [rbind].
    rewrite (count_of_metric _ _ (metric_ok_field _ d "views" Hv)).
    rewrite (count_of_metric _ _ (metric_ok_field _ d "clones" Hc)).
    cbn [rbind]. rewrite (IH _ _ Hrest).
    cbn [map]. rewrite <- !app_assoc. reflexivity.
Qed.

Lemma sum_counts_rows (data : list (string * json)) (field : string) :
  sum_counts (map (row field) data) = Spec.total data field "count".
Proof.
  unfold sum_counts, Spec.total.
  induction data as [|kv data IH]; [reflexivity|].
  cbn [map fold_right]. rewrite IH. reflexivity.
Qed.

(** X23.  On a report whose views and clones are absent or dictionaries of
    numbers, the extraction loop of the analysis script raises nothing and
    lists every repository once, in the order of the report, with its
    [views.count] and its [clones.count]; a metric that is absent, or
    without a [count], is listed with 0. *)
Theorem extraction_lists_every_repository
    (data : list (string * json)) :
  Spec.report_ok data = true ->
  extract data
  = Return (map (row "views") data, map (row "clones") data).
Proof.
  intros Hok. unfold extract.
  rewrite (counts_rows data [] [] Hok). reflexivity.
Qed.

Lemma extraction_lists_every_repository_end_to_end :
  extract Scenario.end_to_end_report
  = Return ([("a", JNum 10); ("b", JNum 0)],
            [("a", JNum 2); ("b", JNum 5)]).
Proof.
  apply (extraction_lists_every_repository Scenario.end_to_end_report).
  reflexivity.
Defined.

(** X24.  The two programs agree on the totals: on a report whose views
    and clones are absent or dictionaries of numbers, the view counts and
    the clone counts that the analysis script extracts add up to the total
    views and the total clones that [print_summary] prints. *)
Theorem extracted_counts_add_up_to_the_totals
    (data repo_views repo_clones : list (string * json)) (t : Totals) :
  Spec.report_ok data = true ->
  extract data = Return (repo_views, repo_clones) ->
  print_summary data = Return t ->
  sum_counts repo_views = total_views t
  /\ sum_counts repo_clones = total_clones t.
Proof.
  intros Hok Hextract Hsummary.
  unfold extract in Hextract. rewrite (counts_rows data [] [] Hok) in Hextract.
  cbn [app] in Hextract. injection Hextract as Hv Hc. subst.
  unfold print_summary in Hsummary.
  rewrite (summary_totals data _ Hok) in Hsummary.
  injection Hsummary as Ht. subst t.
  cbn [total_views total_clones].
  rewrite !sum_counts_rows. split; reflexivity.
Qed.

Lemma extracted_counts_add_up_to_the_totals_end_to_end :
  sum_counts [("a", JNum 10); ("b", JNum 0)] = 10
  /\ sum_counts [("a", JNum 2); ("b", JNum 5)] = 7.
Proof.
  apply (extracted_counts_add_up_to_the_totals Scenario.end_to_end_report
           [("a", JNum 10); ("b", JNum 0)] [("a", JNum 2); ("b", JNum 5)]
           {| total_views := 10; total_unique_views := 4;
              total_clones := 7 |}).
  - reflexivity.
  - reflexivity.
  - reflexivity.
Defined.

(** ** The five largest *)






